(** * irxmit: IR remote-control frame encoder (AEHA and NEC formats)

    A shallow embedding of [irxmit.py] (class [IRxmit]) and the properties of
    its bitstream encoder and pulse-train synthesizer.

    Modelling choices.
    - A Python [str] holding payload text or bits is a [list ascii]
      (code points 0..255); format names, host names and exception messages
      are [string]s, which the code only compares or passes on.
    - Python [int] is [Z]; the GPIO number [pin] is an [N] (pigpio packs it as
      an unsigned word when the constructor calls [set_mode]).
    - An exception is a value of [exn]; a computation that may raise returns a
      [result].
    - The pigpio handle [self.pi] is an external device: the calls made on it
      are appended to a log, and what [wave_create] and [wave_tx_busy] answer
      is given by the device, a parameter of the model.
    - The [DEBUG] prints are not modelled.

    Limits of the model. [PyInt.int16] is [int(., 16)] on text of code
    points 0..255; beyond them [int] also accepts the decimal digits and the
    white space of other scripts, so what holds of every Python text is
    stated over [get_bitstream_any], the same loop with the alphabet and
    [int] left open. A call on the device is taken to succeed; what a frame
    holds is stated on the wave buffer, before any call is made. *)

From Stdlib Require Import ZArith NArith QArith List Ascii String Bool Lia.
Import ListNotations.

Local Open Scope Z_scope.

(** ** Python values, exceptions and results *)

Definition py_str := list ascii.

Inductive exn : Type :=
| Exception (msg : string)       (* raise Exception(msg) *)
| ValueError (literal : py_str). (* int(): invalid literal *)

Inductive result (A : Type) : Type :=
| Ok (a : A)
| Raise (e : exn).

Arguments Ok {A} a.
Arguments Raise {A} e.

Definition rbind {A B} (r : result A) (k : A -> result B) : result B :=
  match r with
  | Ok a => k a
  | Raise e => Raise e
  end.

Notation "x <-? r ;; k" := (rbind r (fun x => k))
  (at level 61, r at next level, right associativity).

(** ** [int(byte, 16)] on text *)

Module PyInt.

(** White space that [int] strips from both ends of a [str]. *)
Definition is_space (c : ascii) : bool :=
  let n := N_of_ascii c in
  (((9 <=? n) && (n <=? 13)) || (n =? 32) || (n =? 133) || (n =? 160))%N.

(** Value of a digit or letter, as in CPython's digit table. *)
Definition digit_value (c : ascii) : option N :=
  let n := N_of_ascii c in
  (if (48 <=? n) && (n <=? 57) then Some (n - 48)
   else if (97 <=? n) && (n <=? 122) then Some (n - 87)
   else if (65 <=? n) && (n <=? 90) then Some (n - 55)
   else None)%N.

Definition hex_digit (c : ascii) : option N :=
  match digit_value c with
  | Some d => if (d <? 16)%N then Some d else None
  | None => None
  end.

Fixpoint lstrip (s : py_str) : py_str :=
  match s with
  | c :: t => if is_space c then lstrip t else s
  | [] => []
  end.

(** Scans digits and single underscores; gives the value read, the number of
    digits and the text left, or [None] on a doubled or trailing underscore. *)
Fixpoint scan_digits (s : py_str) (prev_us : bool) (acc : N) (ndigits : nat)
  : option (N * nat * py_str) :=
  match s with
  | c :: t =>
      if Ascii.eqb c "_" then
        if prev_us then None else scan_digits t true acc ndigits
      else
        match hex_digit c with
        | Some d => scan_digits t false (16 * acc + d)%N (S ndigits)
        | None => if prev_us then None else Some (acc, ndigits, s)
        end
  | [] => if prev_us then None else Some (acc, ndigits, [])
  end.

Definition skip_sign (s : py_str) : bool * py_str :=
  match s with
  | c :: t =>
      if Ascii.eqb c "+" then (false, t)
      else if Ascii.eqb c "-" then (true, t)
      else (false, s)
  | [] => (false, [])
  end.

Definition skip_prefix (s : py_str) : py_str :=
  match s with
  | z :: x :: t =>
      if Ascii.eqb z "0" && (Ascii.eqb x "x" || Ascii.eqb x "X") then
        match t with
        | u :: t' => if Ascii.eqb u "_" then t' else t
        | [] => t
        end
      else s
  | _ => s
  end.

Definition leading_underscore (s : py_str) : bool :=
  match s with
  | c :: _ => Ascii.eqb c "_"
  | [] => false
  end.

(** [int(s, 16)]. *)
Definition int16 (s : py_str) : result Z :=
  let (neg, s1) := skip_sign (lstrip s) in
  let s2 := skip_prefix s1 in
  if leading_underscore s2 then Raise (ValueError s)
  else
    match scan_digits s2 false 0%N 0%nat with
    | Some (v, S _, rest) =>
        match lstrip rest with
        | [] => Ok (if neg then - Z.of_N v else Z.of_N v)
        | _ :: _ => Raise (ValueError s)
        end
    | _ => Raise (ValueError s)
    end.

End PyInt.

(** ** The format specification [08b] *)

Module PyFormat.

Fixpoint bin_digits_pos (p : positive) : py_str :=
  match p with
  | xH => ["1"%char]
  | xO q => bin_digits_pos q ++ ["0"%char]
  | xI q => bin_digits_pos q ++ ["1"%char]
  end.

Definition bin_digits (n : N) : py_str :=
  match n with
  | N0 => ["0"%char]
  | Npos p => bin_digits_pos p
  end.

Definition zfill (width : nat) (s : py_str) : py_str :=
  repeat "0"%char (width - List.length s) ++ s.

(** [f'{v:08b}']: binary digits, zero-padded after the sign to 8 columns. *)
Definition format_08b (v : Z) : py_str :=
  if v <? 0 then "-"%char :: zfill 7 (bin_digits (Z.abs_N v))
  else zfill 8 (bin_digits (Z.to_N v)).

End PyFormat.

(** ** [IRxmit.get_bitstream] *)

(** [s[lo:hi]] for indices within [0 .. ]. *)
Definition slice (s : py_str) (lo hi : nat) : py_str :=
  firstn (hi - lo) (skipn lo s).

(** One turn of the loop of [get_bitstream]. *)
Definition get_bitstream_step (s : py_str) (bits : py_str) (i : nat)
  : result py_str :=
  let byte := slice s (i * 2) (i * 2 + 2) in
  v <-? PyInt.int16 byte ;;
  let bits_MSB_first := PyFormat.format_08b v in
  Ok (bits ++ rev bits_MSB_first).

Fixpoint for_range {A} (body : A -> nat -> result A) (idx : list nat) (a : A)
  : result A :=
  match idx with
  | [] => Ok a
  | i :: rest => a' <-? body a i ;; for_range body rest a'
  end.

Definition get_bitstream (s : py_str) : result py_str :=
  for_range (get_bitstream_step s) (seq 0 (List.length s / 2)) [].

Definition str (s : string) : py_str := list_ascii_of_string s.

(** ** The pulse output device (pigpio) *)

(** [pigpio.pulse(gpio_on, gpio_off, delay)]. *)
Record pulse : Type := mk_pulse {
  gpio_on : Z;
  gpio_off : Z;
  delay : Z
}.

(** The calls the transmitter makes on its pigpio handle. *)
Inductive pi_call : Type :=
| pi_connect (host : string)        (* pigpio.pi(host) *)
| set_mode_output (gpio : N)        (* pi.set_mode(gpio, pigpio.OUTPUT) *)
| wave_clear
| wave_add_generic (wb : list pulse)
| wave_create
| wave_send_once (wave : Z)
| wave_tx_busy
| stop.

(** What the device answers, from the calls it has seen so far. *)
Record pigpio : Type := {
  wave_create_ret : list pi_call -> Z;
  wave_tx_busy_ret : list pi_call -> bool
}.

(** Computations on the device: the log of calls is threaded through, and an
    exception ends the computation with the log as it then stands. *)
Definition io (A : Type) : Type := list pi_call -> list pi_call * result A.

Definition ret {A} (a : A) : io A := fun log => (log, Ok a).

Definition raise {A} (e : exn) : io A := fun log => (log, Raise e).

Definition bind {A B} (m : io A) (k : A -> io B) : io B :=
  fun log =>
    match m log with
    | (log', Ok a) => k a log'
    | (log', Raise e) => (log', Raise e)
    end.

Definition lift {A} (r : result A) : io A := fun log => (log, r).

Definition call (c : pi_call) : io unit := fun log => (log ++ [c], Ok tt).

Notation "x <- m ;; k" := (bind m (fun x => k))
  (at level 61, m at next level, right associativity).
Notation "m ;;; k" := (bind m (fun _ => k))
  (at level 61, right associativity).

(** ** The transmitter *)

(** The private fields of an [IRxmit] object. *)
Record IRxmit : Type := {
  pin : N;
  host : string;
  T_CARRIER : Z;      (* [microsec], carrier period *)
  MARK_CYCLES : Z;    (* [cycles], number of carrier cycles in a mark *)
  MARK_OFF : Z;       (* off length relative to on length if '1' *)
  T_FRAME_MAX : Q;    (* [s], expected maximum frame length *)
  T_LEADER_ON : Z;    (* on time of the leader *)
  T_LEADER_OFF : Z    (* off time of the leader *)
}.

Definition default_host : string := "127.0.0.1".
Definition default_format : string := "AEHA".

(** [IRxmit.__init__]. *)
Definition __init__ (pin : N) (host : string) (format : string) : io IRxmit :=
  call (pi_connect host) ;;;
  call (set_mode_output pin) ;;;
  if String.eqb format "AEHA" then
    ret {| pin := pin; host := host;
           T_CARRIER := 26; MARK_CYCLES := 17; MARK_OFF := 3;
           T_FRAME_MAX := 13 # 100;
           T_LEADER_ON := 8; T_LEADER_OFF := 4 |}
  else if String.eqb format "NEC" then
    ret {| pin := pin; host := host;
           T_CARRIER := 26; MARK_CYCLES := 22; MARK_OFF := 3;
           T_FRAME_MAX := 108 # 1000;
           T_LEADER_ON := 16; T_LEADER_OFF := 8 |}
  else
    raise (Exception "Unknown format specified.").

(** [IRxmit.__del__]. *)
Definition __del__ (self : IRxmit) : io unit := call stop.

Section Synthesis.

Variable self : IRxmit.

Definition pulse_on (d : Z) : pulse :=
  mk_pulse (Z.shiftl 1 (Z.of_N (pin self))) 0 d.

Definition pulse_off (d : Z) : pulse :=
  mk_pulse 0 (Z.shiftl 1 (Z.of_N (pin self))) d.

(** [wb.append(x)]. *)
Definition append (wb : list pulse) (x : pulse) : list pulse := wb ++ [x].

(** [for i in range(0, n)]: one carrier cycle, on then off, per turn. *)
Fixpoint carrier_loop (n : nat) (wb : list pulse) : list pulse :=
  match n with
  | O => wb
  | S k =>
      let wb := append wb (pulse_on (T_CARRIER self / 2)) in
      let wb := append wb (pulse_off (T_CARRIER self / 2)) in
      carrier_loop k wb
  end.

(** [range(0, n)] has [max n 0] elements. *)
Definition range_len (n : Z) : nat := Z.to_nat n.

(** The body of [for bit in bits]. *)
Definition data_step (wb : list pulse) (bit : ascii) : list pulse :=
  let wb := carrier_loop (range_len (MARK_CYCLES self)) wb in
  if Ascii.eqb bit "0" then
    append wb (pulse_off (T_CARRIER self * MARK_CYCLES self))
  else if Ascii.eqb bit "1" then
    append wb (pulse_off (T_CARRIER self * MARK_CYCLES self * MARK_OFF self))
  else wb.

(** The wave buffer [wb] that [synthesize_frame] builds (leader, data,
    trailer) before it turns to the device. *)
Definition wave_buffer (bits : py_str) : list pulse :=
  let wb := [] in
  let wb := carrier_loop (range_len (MARK_CYCLES self * T_LEADER_ON self)) wb in
  let wb := append wb (pulse_off
              (T_CARRIER self * MARK_CYCLES self * T_LEADER_OFF self)) in
  let wb := fold_left data_step bits wb in
  let wb := carrier_loop (range_len (MARK_CYCLES self)) wb in
  let wb := append wb (pulse_off (8000 - T_CARRIER self * MARK_CYCLES self)) in
  wb.

End Synthesis.

Section Device.

Variable dev : pigpio.

(** [IRxmit.synthesize_frame]. *)
Definition synthesize_frame (self : IRxmit) (bits : py_str) : io Z :=
  let wb := wave_buffer self bits in
  call wave_clear ;;;
  call (wave_add_generic wb) ;;;
  call wave_create ;;;
  fun log => (log, Ok (wave_create_ret dev log)).

(** [IRxmit.send]. *)
Definition send (self : IRxmit) (s : py_str) : io unit :=
  bits <- lift (get_bitstream s) ;;
  wave <- synthesize_frame self bits ;;
  call (wave_send_once wave).

(** [IRxmit.is_busy]. *)
Definition is_busy (self : IRxmit) : io bool :=
  call wave_tx_busy ;;;
  fun log => (log, Ok (wave_tx_busy_ret dev log)).

End Device.

(** ** Views used to state the properties *)

(** [n] carrier cycles: on/off pairs of half a carrier period each. *)
Definition carrier (self : IRxmit) (n : nat) : list pulse :=
  List.concat (repeat [pulse_on self (T_CARRIER self / 2);
                  pulse_off self (T_CARRIER self / 2)] n).

Definition mark_duration (self : IRxmit) : Z :=
  T_CARRIER self * MARK_CYCLES self.

(** One mark: [MARK_CYCLES] carrier cycles. *)
Definition mark (self : IRxmit) : list pulse :=
  carrier self (Z.to_nat (MARK_CYCLES self)).

Definition leader (self : IRxmit) : list pulse :=
  carrier self (Z.to_nat (MARK_CYCLES self * T_LEADER_ON self))
  ++ [pulse_off self (T_CARRIER self * MARK_CYCLES self * T_LEADER_OFF self)].

(** The off segments that follow the mark of a data character. *)
Definition space (self : IRxmit) (bit : ascii) : list pulse :=
  if Ascii.eqb bit "0" then [pulse_off self (mark_duration self)]
  else if Ascii.eqb bit "1" then
    [pulse_off self (mark_duration self * MARK_OFF self)]
  else [].

Definition data_segment (self : IRxmit) (bit : ascii) : list pulse :=
  mark self ++ space self bit.

Definition trailer (self : IRxmit) : list pulse :=
  mark self ++ [pulse_off self (8000 - mark_duration self)].

(** Total duration of a pulse list, in microseconds. *)
Definition duration (wb : list pulse) : Z :=
  fold_right (fun p acc => delay p + acc) 0 wb.

(** ** The byte view of a payload and of a bitstream *)

(** The hexadecimal digits in the order of their values, in either case. *)
Definition hex_lower : py_str := str "0123456789abcdef".
Definition hex_upper : py_str := str "0123456789ABCDEF".

Fixpoint index_of (c : ascii) (l : py_str) (i : N) : option N :=
  match l with
  | [] => None
  | x :: rest => if Ascii.eqb c x then Some i else index_of c rest (N.succ i)
  end.

(** Value of a hexadecimal digit character: its place among the digits. *)
Definition nibble (c : ascii) : option N :=
  match index_of c hex_lower 0%N with
  | Some v => Some v
  | None => index_of c hex_upper 0%N
  end.

Definition is_hex (c : ascii) : bool :=
  match nibble c with Some _ => true | None => false end.

Definition nibble_value (c : ascii) : N :=
  match nibble c with Some v => v | None => 0%N end.

(** The bytes a hexadecimal text denotes: one per pair of characters, the
    most significant nibble first. *)
Fixpoint payload_bytes (s : py_str) : list N :=
  match s with
  | hi :: lo :: rest =>
      (16 * nibble_value hi + nibble_value lo)%N :: payload_bytes rest
  | _ => []
  end.

(** Consecutive groups of 8. *)
Fixpoint groups8 (bits : py_str) : list py_str :=
  match bits with
  | b0 :: b1 :: b2 :: b3 :: b4 :: b5 :: b6 :: b7 :: rest =>
      [b0; b1; b2; b3; b4; b5; b6; b7] :: groups8 rest
  | _ => []
  end.

Definition bit_value (c : ascii) : N :=
  if Ascii.eqb c "1" then 1%N else 0%N.

(** Reads bit characters as a binary numeral, most significant bit first. *)
Definition read_binary (bits : py_str) : N :=
  fold_left (fun acc c => (2 * acc + bit_value c)%N) bits 0%N.

(** Regroups a bitstream in groups of 8, reverses each group and reads it as
    a byte. *)
Definition decode_bitstream (bits : py_str) : list N :=
  map (fun g => read_binary (rev g)) (groups8 bits).

Definition is_bit (c : ascii) : bool := Ascii.eqb c "0" || Ascii.eqb c "1".

(** ** Auxiliary definitions *)

(** [get_bitstream] read as a recursion over the pairs of characters. *)
Fixpoint encode_pairs (s : py_str) (bits : py_str) : result py_str :=
  match s with
  | a :: b :: rest =>
      v <-? PyInt.int16 [a; b] ;;
      encode_pairs rest (bits ++ rev (PyFormat.format_08b v))
  | _ => Ok bits
  end.

(** The 8 bits of a byte, least significant first, as the encoder emits
    them. *)
Definition lsb_first (n : N) : py_str :=
  rev (PyFormat.format_08b (Z.of_N n)).

(** All characters, and the checks run over all pairs of them. *)
Definition all_chars : list ascii := map ascii_of_nat (seq 0 256).

Definition hex_pair_ok (a b : ascii) : bool :=
  negb (is_hex a && is_hex b) ||
  match PyInt.int16 [a; b] with
  | Ok v => v =? Z.of_N (16 * nibble_value a + nibble_value b)
  | Raise _ => false
  end.

(** The objects the constructor builds for the two formats. *)
Definition AEHA (pin : N) (host : string) : IRxmit :=
  {| pin := pin; host := host;
     T_CARRIER := 26; MARK_CYCLES := 17; MARK_OFF := 3;
     T_FRAME_MAX := 13 # 100;
     T_LEADER_ON := 8; T_LEADER_OFF := 4 |}.

Definition NEC (pin : N) (host : string) : IRxmit :=
  {| pin := pin; host := host;
     T_CARRIER := 26; MARK_CYCLES := 22; MARK_OFF := 3;
     T_FRAME_MAX := 108 # 1000;
     T_LEADER_ON := 16; T_LEADER_OFF := 8 |}.

(** What both profiles share. *)
Definition shipped (self : IRxmit) : Prop :=
  T_CARRIER self = 26 /\ MARK_OFF self = 3
  /\ ((MARK_CYCLES self = 17 /\ T_LEADER_ON self = 8 /\ T_LEADER_OFF self = 4)
      \/ (MARK_CYCLES self = 22 /\ T_LEADER_ON self = 16
          /\ T_LEADER_OFF self = 8)).

(** The object [IRxmit(13)] of the module's test code. *)
Definition ir13 : IRxmit := AEHA 13 default_host.

(** A profile whose mark is longer than 8 ms. *)
Definition long_mark : IRxmit :=
  {| pin := 13; host := default_host;
     T_CARRIER := 26; MARK_CYCLES := 308; MARK_OFF := 3;
     T_FRAME_MAX := 13 # 100;
     T_LEADER_ON := 8; T_LEADER_OFF := 4 |}.

(** A device that answers 0 and "not busy", for the examples. *)
Definition quiet_device : pigpio :=
  {| wave_create_ret := fun _ => 0; wave_tx_busy_ret := fun _ => false |}.

(** ** The encoder over any alphabet *)

Section AnyText.

(** The characters of the text, and [int(byte, 16)] on them, whatever it
    accepts. *)
Variable char : Type.
Variable int_16 : list char -> result Z.

Definition slice_any (s : list char) (lo hi : nat) : list char :=
  firstn (hi - lo) (skipn lo s).

Definition get_bitstream_step_any (s : list char) (bits : py_str) (i : nat)
  : result py_str :=
  let byte := slice_any s (i * 2) (i * 2 + 2) in
  v <-? int_16 byte ;;
  let bits_MSB_first := PyFormat.format_08b v in
  Ok (bits ++ rev bits_MSB_first).

(** [IRxmit.get_bitstream] on such a text. *)
Definition get_bitstream_any (s : list char) : result py_str :=
  for_range (get_bitstream_step_any s) (seq 0 (List.length s / 2)) [].

(** [IRxmit.send] on such a text. *)
Definition send_any (dev : pigpio) (self : IRxmit) (s : list char)
  : io unit :=
  bits <- lift (get_bitstream_any s) ;;
  wave <- synthesize_frame dev self bits ;;
  call (wave_send_once wave).

End AnyText.

Arguments slice_any {char} s lo hi.
Arguments get_bitstream_step_any {char} int_16 s bits i.
Arguments get_bitstream_any {char} int_16 s.
Arguments send_any {char} int_16 dev self s.

(** ** Definitions for the further properties *)

(** The characters [f'{v:08b}'] is made of. *)
Definition is_bit_or_minus (c : ascii) : bool :=
  is_bit c || Ascii.eqb c "-".

(** The check, on a pair that [int] accepts, that its formatted value has 8
    characters, all bits or a minus sign. *)
Definition chunk_ok (a b : ascii) : bool :=
  match PyInt.int16 [a; b] with
  | Ok v =>
      (List.length (PyFormat.format_08b v) =? 8)%nat
      && forallb is_bit_or_minus (PyFormat.format_08b v)
  | Raise _ => true
  end.

Definition bit_char (b : bool) : ascii := if b then "1"%char else "0"%char.

(** The check that the character at place [i] of the 8 emitted for a byte is
    its bit [i]. *)
Definition byte_bits_ok (n : N) : bool :=
  forallb (fun i => Ascii.eqb (nth i (lsb_first n) "0"%char)
                              (bit_char (N.testbit n (N.of_nat i))))
          (seq 0 8).

Definition all_bytes : list N := map N.of_nat (seq 0 256).

(** Every on pulse is a carrier half-cycle and is directly followed by an
    off half-cycle; all other pulses are off pulses. *)
Fixpoint carrier_paired (self : IRxmit) (wb : list pulse) : Prop :=
  match wb with
  | [] => True
  | p :: rest =>
      (p = pulse_on self (T_CARRIER self / 2)
       /\ match rest with
          | q :: _ => q = pulse_off self (T_CARRIER self / 2)
          | [] => False
          end
       /\ carrier_paired self rest)
      \/ ((exists d, p = pulse_off self d) /\ carrier_paired self rest)
  end.

(** [T_FRAME_MAX], given in seconds, in microseconds. *)
Definition frame_max_us (self : IRxmit) : Q :=
  (T_FRAME_MAX self * inject_Z 1000000)%Q.

(** * Properties *)

(** ** The encoder, pair by pair *)

Lemma pair_ind {A} (P : list A -> Prop) :
  P [] -> (forall a, P [a]) -> (forall a b l, P l -> P (a :: b :: l)) ->
  forall l, P l.
Proof.
  intros Hnil Hone Hstep l.
  assert (H : P l /\ forall a, P (a :: l)).
  { induction l as [| x l [IH1 IH2]].
    - split; [exact Hnil | exact Hone].
    - split; [apply IH2 | intros a; apply Hstep; exact IH1]. }
  exact (proj1 H).
Qed.

Lemma half_length_cons2 {A} (a b : A) (l : list A) :
  (List.length (a :: b :: l) / 2 = S (List.length l / 2))%nat.
Proof.
  simpl List.length.
  replace (S (S (List.length l))) with (1 * 2 + List.length l)%nat by lia.
  rewrite Nat.div_add_l by discriminate. reflexivity.
Qed.

Lemma slice_at_pair (pre : py_str) (a b : ascii) (rest : py_str) (k : nat) :
  List.length pre = (k * 2)%nat ->
  slice (pre ++ a :: b :: rest) (k * 2) (k * 2 + 2) = [a; b].
Proof.
  intros Hlen. unfold slice.
  replace (k * 2 + 2 - k * 2)%nat with 2%nat by lia.
  rewrite <- Hlen, skipn_app, Nat.sub_diag, skipn_all. reflexivity.
Qed.

Lemma for_range_pairs (rest : py_str) :
  forall (pre : py_str) (k : nat) (bits : py_str),
    List.length pre = (k * 2)%nat ->
    for_range (get_bitstream_step (pre ++ rest))
              (seq k (List.length rest / 2)) bits
    = encode_pairs rest bits.
Proof.
  induction rest as [| c | a b rest IH] using pair_ind; intros pre k bits Hlen.
  - reflexivity.
  - reflexivity.
  - rewrite half_length_cons2. simpl seq. simpl for_range.
    unfold get_bitstream_step at 1.
    rewrite slice_at_pair by exact Hlen.
    simpl encode_pairs.
    destruct (PyInt.int16 [a; b]) as [v | e]; simpl; [| reflexivity].
    replace (pre ++ a :: b :: rest) with ((pre ++ [a; b]) ++ rest)
      by (rewrite <- app_assoc; reflexivity).
    apply IH. rewrite length_app, Hlen. simpl. lia.
Qed.

Lemma get_bitstream_pairs (s : py_str) :
  get_bitstream s = encode_pairs s [].
Proof.
  unfold get_bitstream. exact (for_range_pairs s [] 0%nat [] eq_refl).
Qed.

(** ** Hexadecimal pairs under [int] *)

Lemma all_chars_complete (c : ascii) : In c all_chars.
Proof.
  rewrite <- (ascii_nat_embedding c). unfold all_chars.
  apply in_map, in_seq. pose proof (nat_ascii_bounded c). lia.
Qed.

Lemma hex_pair_table :
  forallb (fun a => forallb (hex_pair_ok a) all_chars) all_chars = true.
Proof. vm_compute. reflexivity. Qed.

Lemma int16_hex_pair (a b : ascii) :
  is_hex a = true -> is_hex b = true ->
  PyInt.int16 [a; b] = Ok (Z.of_N (16 * nibble_value a + nibble_value b)).
Proof.
  intros Ha Hb.
  pose proof hex_pair_table as T.
  rewrite forallb_forall in T. specialize (T a (all_chars_complete a)).
  rewrite forallb_forall in T. specialize (T b (all_chars_complete b)).
  unfold hex_pair_ok in T. rewrite Ha, Hb in T. simpl in T.
  destruct (PyInt.int16 [a; b]) as [v | e]; [| discriminate T].
  apply Z.eqb_eq in T. rewrite T. reflexivity.
Qed.

Lemma nibble_value_bound (c : ascii) : (nibble_value c < 16)%N.
Proof.
  pose proof (all_chars_complete c) as Hin.
  assert (T : forallb (fun c => (nibble_value c <? 16)%N) all_chars = true)
    by (vm_compute; reflexivity).
  rewrite forallb_forall in T. apply N.ltb_lt. apply T. exact Hin.
Qed.

(** ** Binary numerals of bytes *)

Lemma read_binary_snoc (l : py_str) (c : ascii) :
  read_binary (l ++ [c]) = (2 * read_binary l + bit_value c)%N.
Proof. unfold read_binary. rewrite fold_left_app. reflexivity. Qed.

Lemma read_binary_bin_digits_pos (p : positive) :
  read_binary (PyFormat.bin_digits_pos p) = Npos p.
Proof.
  induction p as [q IH | q IH |]; simpl.
  - rewrite read_binary_snoc, IH. reflexivity.
  - rewrite read_binary_snoc, IH. reflexivity.
  - reflexivity.
Qed.

Lemma read_binary_bin_digits (n : N) :
  read_binary (PyFormat.bin_digits n) = n.
Proof.
  destruct n as [| p]; [reflexivity | apply read_binary_bin_digits_pos].
Qed.

Lemma read_binary_zfill (w : nat) (s : py_str) :
  read_binary (PyFormat.zfill w s) = read_binary s.
Proof.
  unfold PyFormat.zfill, read_binary. rewrite fold_left_app.
  replace (fold_left _ (repeat "0"%char (w - List.length s)) 0%N) with 0%N;
    [reflexivity |].
  induction (w - List.length s)%nat as [| k IH]; [reflexivity | exact IH].
Qed.

Lemma length_bin_digits_pos (p : positive) :
  List.length (PyFormat.bin_digits_pos p) = Pos.size_nat p.
Proof.
  induction p as [q IH | q IH |]; simpl;
    try (rewrite length_app, IH; simpl; lia); reflexivity.
Qed.

Lemma length_bin_digits_byte (n : N) :
  (n < 256)%N -> (List.length (PyFormat.bin_digits n) <= 8)%nat.
Proof.
  intros Hn. destruct n as [| p]; [simpl; lia |].
  simpl. rewrite length_bin_digits_pos.
  destruct (Pos.eq_dec p 255) as [-> | Hne]; [simpl; lia |].
  assert (Hlt : (p < 255)%positive) by lia.
  apply Pos.size_nat_monotone in Hlt. simpl in Hlt. exact Hlt.
Qed.

Lemma length_zfill (w : nat) (s : py_str) :
  (List.length s <= w)%nat -> List.length (PyFormat.zfill w s) = w.
Proof.
  intros H. unfold PyFormat.zfill. rewrite length_app, repeat_length. lia.
Qed.

Lemma bin_digits_pos_bits (p : positive) :
  forallb is_bit (PyFormat.bin_digits_pos p) = true.
Proof.
  induction p as [q IH | q IH |]; simpl;
    try (rewrite forallb_app, IH; reflexivity); reflexivity.
Qed.

Lemma zfill_bits (w : nat) (s : py_str) :
  forallb is_bit s = true -> forallb is_bit (PyFormat.zfill w s) = true.
Proof.
  intros H. unfold PyFormat.zfill. rewrite forallb_app, H, andb_true_r.
  induction (w - List.length s)%nat as [| k IH]; [reflexivity | exact IH].
Qed.

Lemma format_08b_byte (n : N) :
  (n < 256)%N ->
  List.length (PyFormat.format_08b (Z.of_N n)) = 8%nat
  /\ read_binary (PyFormat.format_08b (Z.of_N n)) = n
  /\ forallb is_bit (PyFormat.format_08b (Z.of_N n)) = true.
Proof.
  intros Hn. unfold PyFormat.format_08b.
  replace (Z.of_N n <? 0) with false by (symmetry; apply Z.ltb_ge; lia).
  rewrite N2Z.id. repeat split.
  - apply length_zfill, length_bin_digits_byte, Hn.
  - rewrite read_binary_zfill. apply read_binary_bin_digits.
  - apply zfill_bits. destruct n as [| p]; [reflexivity |].
    apply bin_digits_pos_bits.
Qed.

Lemma groups8_app (g rest : py_str) :
  List.length g = 8%nat -> groups8 (g ++ rest) = g :: groups8 rest.
Proof.
  intros H.
  do 8 (destruct g as [| ? g]; [discriminate H |]).
  destruct g; [reflexivity | discriminate H].
Qed.

Lemma decode_lsb_first (bytes : list N) :
  Forall (fun n => (n < 256)%N) bytes ->
  decode_bitstream (flat_map lsb_first bytes) = bytes.
Proof.
  induction 1 as [| n bytes Hn _ IH]; [reflexivity |].
  destruct (format_08b_byte n Hn) as (Hlen & Hval & _).
  simpl flat_map. unfold decode_bitstream in *.
  rewrite groups8_app by (unfold lsb_first; rewrite length_rev; exact Hlen).
  simpl map. rewrite IH. unfold lsb_first. rewrite rev_involutive, Hval.
  reflexivity.
Qed.

Lemma length_lsb_first (bytes : list N) :
  Forall (fun n => (n < 256)%N) bytes ->
  List.length (flat_map lsb_first bytes) = (8 * List.length bytes)%nat.
Proof.
  induction 1 as [| n bytes Hn _ IH]; [reflexivity |].
  destruct (format_08b_byte n Hn) as (Hlen & _ & _).
  simpl flat_map. rewrite length_app, IH. unfold lsb_first.
  rewrite length_rev, Hlen. simpl List.length. lia.
Qed.

Lemma lsb_first_bits (bytes : list N) :
  Forall (fun n => (n < 256)%N) bytes ->
  forallb is_bit (flat_map lsb_first bytes) = true.
Proof.
  induction 1 as [| n bytes Hn _ IH]; [reflexivity |].
  destruct (format_08b_byte n Hn) as (_ & _ & Hbits).
  simpl flat_map. rewrite forallb_app, IH, andb_true_r.
  unfold lsb_first. rewrite forallb_forall in *.
  intros c Hc. apply Hbits. apply in_rev. exact Hc.
Qed.

Lemma payload_bytes_bound (s : py_str) :
  Forall (fun n => (n < 256)%N) (payload_bytes s).
Proof.
  induction s as [| c | a b s IH] using pair_ind;
    cbn [payload_bytes]; constructor.
  - pose proof (nibble_value_bound a). pose proof (nibble_value_bound b). lia.
  - exact IH.
Qed.

Lemma length_payload_bytes (s : py_str) :
  List.length (payload_bytes s) = (List.length s / 2)%nat.
Proof.
  induction s as [| c | a b s IH] using pair_ind; try reflexivity.
  rewrite half_length_cons2. simpl. rewrite IH. reflexivity.
Qed.

Lemma encode_pairs_hex (s : py_str) :
  forallb is_hex s = true ->
  forall bits,
    encode_pairs s bits = Ok (bits ++ flat_map lsb_first (payload_bytes s)).
Proof.
  induction s as [| c | a b s IH] using pair_ind; intros Hhex bits.
  - simpl. rewrite app_nil_r. reflexivity.
  - simpl. rewrite app_nil_r. reflexivity.
  - simpl in Hhex. apply andb_prop in Hhex as [Ha Hhex].
    apply andb_prop in Hhex as [Hb Hhex].
    simpl encode_pairs. rewrite (int16_hex_pair a b Ha Hb). simpl rbind.
    rewrite (IH Hhex). simpl payload_bytes. simpl flat_map.
    rewrite app_assoc. reflexivity.
Qed.

(** ** Claims on the encoder *)

(** C1. For every hexadecimal payload text of even length, [get_bitstream]
    returns a bitstream of 8 bits per byte (8 x (length / 2) characters, each
    '0' or '1'); cutting it in consecutive groups of 8, reversing each group
    and reading it as a binary numeral gives back the payload bytes, one per
    pair of hexadecimal digits. *)
Theorem get_bitstream_roundtrip (s : py_str)
  (Hhex : forallb is_hex s = true)
  (Heven : Nat.even (List.length s) = true) :
  exists bits,
    get_bitstream s = Ok bits
    /\ List.length bits = (8 * (List.length s / 2))%nat
    /\ forallb is_bit bits = true
    /\ decode_bitstream bits = payload_bytes s
    /\ List.length (payload_bytes s) = (List.length s / 2)%nat.
Proof.
  exists (flat_map lsb_first (payload_bytes s)).
  pose proof (payload_bytes_bound s) as Hb.
  repeat split.
  - rewrite get_bitstream_pairs. apply (encode_pairs_hex s Hhex []).
  - rewrite length_lsb_first by exact Hb. rewrite length_payload_bytes.
    reflexivity.
  - apply lsb_first_bits, Hb.
  - apply decode_lsb_first, Hb.
  - apply length_payload_bytes.
Qed.

Lemma get_bitstream_roundtrip_witness :
  exists bits,
    get_bitstream (str "06f901fe") = Ok bits
    /\ List.length bits = (8 * (List.length (str "06f901fe") / 2))%nat
    /\ forallb is_bit bits = true
    /\ decode_bitstream bits = payload_bytes (str "06f901fe")
    /\ List.length (payload_bytes (str "06f901fe"))
       = (List.length (str "06f901fe") / 2)%nat.
Proof.
  apply (get_bitstream_roundtrip (str "06f901fe")); reflexivity.
Defined.

(** ** When the encoder raises *)

Lemma int16_raise_literal (s : py_str) (e : exn) :
  PyInt.int16 s = Raise e -> e = ValueError s.
Proof.
  unfold PyInt.int16.
  destruct (PyInt.skip_sign (PyInt.lstrip s)) as [neg s1].
  destruct (PyInt.leading_underscore (PyInt.skip_prefix s1));
    [intros H; injection H as <-; reflexivity |].
  destruct (PyInt.scan_digits _ _ _ _) as [[[v [| n]] rest] |];
    try (intros H; injection H as <-; reflexivity).
  destruct (PyInt.lstrip rest); intros H;
    [discriminate H | injection H as <-; reflexivity].
Qed.

Lemma get_bitstream_step_raise (s bits : py_str) (i : nat) (e : exn) :
  get_bitstream_step s bits i = Raise e <->
  PyInt.int16 (slice s (i * 2) (i * 2 + 2)) = Raise e.
Proof.
  unfold get_bitstream_step.
  destruct (PyInt.int16 (slice s (i * 2) (i * 2 + 2))) as [v | e']; simpl;
    split; intros H; try discriminate H; injection H as ->; reflexivity.
Qed.

Lemma for_range_raise_at {A} (body : A -> nat -> result A) (i : nat) :
  (forall a, exists e, body a i = Raise e) ->
  forall idx, In i idx ->
  forall a, exists e, for_range body idx a = Raise e.
Proof.
  intros Hbad idx. induction idx as [| j idx IH]; intros Hin a.
  - destruct Hin.
  - simpl. destruct (body a j) as [a' | e] eqn:Hj; simpl.
    + destruct Hin as [-> | Hin].
      * destruct (Hbad a) as [e He]. rewrite He in Hj. discriminate Hj.
      * apply IH. exact Hin.
    + exists e. reflexivity.
Qed.

Lemma for_range_first_raise {A} (body : A -> nat -> result A) (n : nat) :
  forall (k : nat) (a : A) (e : exn),
    for_range body (seq k n) a = Raise e ->
    exists i,
      (k <= i < k + n)%nat
      /\ (exists a', body a' i = Raise e)
      /\ forall j, (k <= j < i)%nat -> exists a1 a2, body a1 j = Ok a2.
Proof.
  induction n as [| n IH]; intros k a e H; simpl in H.
  - discriminate H.
  - destruct (body a k) as [a' | e'] eqn:Hk; simpl in H.
    + destruct (IH (S k) a' e H) as (i & Hi & Hraise & Hbefore).
      exists i. split; [lia |]. split; [exact Hraise |].
      intros j Hj. destruct (Nat.eq_dec j k) as [-> | Hne].
      * exists a, a'. exact Hk.
      * apply Hbefore. lia.
    + injection H as <-. exists k. split; [lia |].
      split; [exists a; exact Hk |]. intros j Hj. lia.
Qed.

Lemma send_run (dev : pigpio) (self : IRxmit) (s bits : py_str) :
  get_bitstream s = Ok bits ->
  forall log,
    let log' := log ++ [wave_clear; wave_add_generic (wave_buffer self bits);
                        wave_create] in
    send dev self s log
    = (log' ++ [wave_send_once (wave_create_ret dev log')], Ok tt).
Proof.
  intros H log. unfold send, bind, lift, synthesize_frame, bind, call.
  rewrite H. cbv beta iota zeta. rewrite <- !app_assoc. reflexivity.
Qed.

Lemma for_range_ext_in {A} (body1 body2 : A -> nat -> result A)
      (idx : list nat) :
  (forall i a, In i idx -> body1 a i = body2 a i) ->
  forall a, for_range body1 idx a = for_range body2 idx a.
Proof.
  induction idx as [| j idx IH]; intros Hext a; [reflexivity |].
  simpl. rewrite (Hext j a (or_introl eq_refl)).
  destruct (body2 a j) as [a' | e]; simpl; [| reflexivity].
  apply IH. intros i a0 Hin. apply Hext. right. exact Hin.
Qed.

Section AnyTextFacts.

Context {char : Type} (int_16 : list char -> result Z).

Lemma get_bitstream_step_any_raise (s : list char) (bits : py_str) (i : nat)
      (e : exn) :
  get_bitstream_step_any int_16 s bits i = Raise e <->
  int_16 (slice_any s (i * 2) (i * 2 + 2)) = Raise e.
Proof.
  unfold get_bitstream_step_any.
  destruct (int_16 (slice_any s (i * 2) (i * 2 + 2))) as [v | e']; simpl;
    split; intros H; try discriminate H; injection H as ->; reflexivity.
Qed.

Lemma get_bitstream_step_any_ok (s : list char) (bits bits' : py_str)
      (i : nat) :
  get_bitstream_step_any int_16 s bits i = Ok bits' ->
  exists v, int_16 (slice_any s (i * 2) (i * 2 + 2)) = Ok v.
Proof.
  unfold get_bitstream_step_any.
  destruct (int_16 (slice_any s (i * 2) (i * 2 + 2))) as [v | e]; simpl;
    intros H; [exists v; reflexivity | discriminate H].
Qed.

Lemma slice_any_app_inside (s t : list char) (i : nat) :
  (i * 2 + 2 <= List.length s)%nat ->
  slice_any (s ++ t) (i * 2) (i * 2 + 2) = slice_any s (i * 2) (i * 2 + 2).
Proof.
  intros Hlen. unfold slice_any.
  replace (i * 2 + 2 - i * 2)%nat with 2%nat by lia.
  rewrite skipn_app, firstn_app.
  replace (2 - List.length (skipn (i * 2) s))%nat with 0%nat
    by (rewrite length_skipn; lia).
  rewrite firstn_O, app_nil_r. reflexivity.
Qed.

Lemma get_bitstream_any_odd_tail (s : list char) (c : char) :
  Nat.even (List.length s) = true ->
  get_bitstream_any int_16 (s ++ [c]) = get_bitstream_any int_16 s.
Proof.
  intros Hev. unfold get_bitstream_any.
  apply Nat.even_spec in Hev as [k Hk].
  assert (Hhalf : (List.length s / 2 = k)%nat).
  { rewrite Hk, Nat.mul_comm. apply Nat.div_mul. discriminate. }
  assert (Hhalf' : (List.length (s ++ [c]) / 2 = k)%nat).
  { rewrite length_app, Hk. simpl List.length.
    replace (2 * k + 1)%nat with (1 + k * 2)%nat by lia.
    rewrite Nat.div_add by discriminate. reflexivity. }
  rewrite Hhalf, Hhalf'. apply for_range_ext_in.
  intros i a Hin. apply in_seq in Hin.
  unfold get_bitstream_step_any.
  rewrite slice_any_app_inside by lia. reflexivity.
Qed.

Lemma send_any_raise (dev : pigpio) (self : IRxmit) (s : list char)
      (e : exn) :
  get_bitstream_any int_16 s = Raise e ->
  forall log, send_any int_16 dev self s log = (log, Raise e).
Proof.
  intros H log. unfold send_any, bind, lift. rewrite H. reflexivity.
Qed.

End AnyTextFacts.

(** C5, as the code has it. Whatever the characters of the text and
    whatever [int] accepts: the encoder raises exactly when [int] rejects one
    of the aligned two-character pairs of the text; the exception is the one
    [int] raised on the first such pair, every pair before it having been
    accepted, and [send] passes it on before any call reaches the device. The
    last character of an odd-length text is never examined: the text is
    encoded as its even-length prefix. [get_bitstream] and [send] are this
    code on text of code points 0..255. *)
Theorem get_bitstream_malformed (char : Type)
  (int_16 : list char -> result Z) (dev : pigpio) (self : IRxmit)
  (s : list char) :
  (forall c, Nat.even (List.length s) = true ->
     get_bitstream_any int_16 (s ++ [c]) = get_bitstream_any int_16 s)
  /\ (forall i, (i < List.length s / 2)%nat ->
        (exists e', int_16 (slice_any s (i * 2) (i * 2 + 2)) = Raise e') ->
        exists e, get_bitstream_any int_16 s = Raise e
                  /\ forall log,
                       send_any int_16 dev self s log = (log, Raise e))
  /\ (forall e, get_bitstream_any int_16 s = Raise e ->
        exists i, (i < List.length s / 2)%nat
                  /\ int_16 (slice_any s (i * 2) (i * 2 + 2)) = Raise e
                  /\ forall j, (j < i)%nat ->
                       exists v,
                         int_16 (slice_any s (j * 2) (j * 2 + 2)) = Ok v)
  /\ (forall t : py_str,
        get_bitstream_any PyInt.int16 t = get_bitstream t
        /\ forall log,
             send_any PyInt.int16 dev self t log = send dev self t log).
Proof.
  split; [| split; [| split]].
  - intros c Hev. apply get_bitstream_any_odd_tail. exact Hev.
  - intros i Hi [e' He'].
    destruct (for_range_raise_at (get_bitstream_step_any int_16 s) i) with
      (idx := seq 0 (List.length s / 2)) (a := @nil ascii) as [e He].
    + intros a. exists e'. apply get_bitstream_step_any_raise. exact He'.
    + apply in_seq. lia.
    + exists e. split; [exact He | apply send_any_raise; exact He].
  - intros e He. unfold get_bitstream_any in He.
    apply for_range_first_raise in He as (i & Hi & [a' Hbad] & Hbefore).
    apply get_bitstream_step_any_raise in Hbad.
    exists i. split; [lia |]. split; [exact Hbad |].
    intros j Hj. destruct (Hbefore j) as (a1 & a2 & Hok); [lia |].
    apply get_bitstream_step_any_ok in Hok. exact Hok.
  - intros t. split; [reflexivity | intros log; reflexivity].
Qed.

Lemma get_bitstream_malformed_witness :
  get_bitstream_any PyInt.int16 (str "2cz9" ++ ["5"%char])
  = get_bitstream_any PyInt.int16 (str "2cz9")
  /\ (exists e, get_bitstream_any PyInt.int16 (str "2cz9") = Raise e
                /\ forall log,
                     send_any PyInt.int16 quiet_device ir13 (str "2cz9") log
                     = (log, Raise e))
  /\ (exists i, (i < List.length (str "2cz9") / 2)%nat
                /\ PyInt.int16 (slice_any (str "2cz9") (i * 2) (i * 2 + 2))
                   = Raise (ValueError (str "z9"))
                /\ forall j, (j < i)%nat ->
                     exists v,
                       PyInt.int16
                         (slice_any (str "2cz9") (j * 2) (j * 2 + 2))
                       = Ok v).
Proof.
  destruct (get_bitstream_malformed ascii PyInt.int16 quiet_device ir13
                                    (str "2cz9"))
    as (Hodd & Hraise & Hfirst & _).
  split; [apply Hodd; reflexivity |].
  split; [| apply Hfirst; reflexivity].
  apply (Hraise 1%nat); [simpl; lia |].
  exists (ValueError (str "z9")). reflexivity.
Defined.

(** C5 fails as stated: an odd-length hexadecimal text is not rejected but
    encoded as its even-length prefix, and a text with a character that is no
    hexadecimal digit can be accepted. *)
Lemma get_bitstream_odd_length_accepted :
  Nat.even (List.length (str "2c5")) = false
  /\ get_bitstream (str "2c5") = Ok (str "00110100")
  /\ get_bitstream (str "2c5") = get_bitstream (str "2c")
  /\ is_hex "+"%char = false
  /\ get_bitstream (str "+a") = Ok (str "01010000")
  /\ forall log,
       send quiet_device ir13 (str "2c5") log
       = (log ++ [wave_clear;
                  wave_add_generic (wave_buffer ir13 (str "00110100"));
                  wave_create; wave_send_once 0], Ok tt).
Proof.
  repeat split; try reflexivity.
  intros log.
  rewrite (send_run quiet_device ir13 (str "2c5") (str "00110100") eq_refl).
  cbv zeta. rewrite <- app_assoc. reflexivity.
Qed.

(** ** The wave buffer in closed form *)

Section WaveBuffer.

Variable self : IRxmit.

Lemma carrier_succ (n : nat) :
  carrier self (S n)
  = [pulse_on self (T_CARRIER self / 2); pulse_off self (T_CARRIER self / 2)]
    ++ carrier self n.
Proof. reflexivity. Qed.

Lemma carrier_loop_app (n : nat) :
  forall wb, carrier_loop self n wb = wb ++ carrier self n.
Proof.
  induction n as [| n IH]; intros wb.
  - simpl. rewrite app_nil_r. reflexivity.
  - cbn [carrier_loop]. rewrite IH, carrier_succ. unfold append.
    rewrite <- !app_assoc. reflexivity.
Qed.

Lemma data_step_app (wb : list pulse) (bit : ascii) :
  data_step self wb bit = wb ++ data_segment self bit.
Proof.
  unfold data_step, data_segment, space, mark, mark_duration, range_len, append.
  rewrite carrier_loop_app.
  destruct (Ascii.eqb bit "0"); [rewrite app_assoc; reflexivity |].
  destruct (Ascii.eqb bit "1"); [rewrite app_assoc; reflexivity |].
  rewrite app_nil_r. reflexivity.
Qed.

Lemma data_loop_app (bits : py_str) :
  forall wb,
    fold_left (data_step self) bits wb
    = wb ++ flat_map (data_segment self) bits.
Proof.
  induction bits as [| bit bits IH]; intros wb; simpl.
  - rewrite app_nil_r. reflexivity.
  - rewrite IH, data_step_app, <- app_assoc. reflexivity.
Qed.

Lemma wave_buffer_parts (bits : py_str) :
  wave_buffer self bits
  = leader self ++ flat_map (data_segment self) bits ++ trailer self.
Proof.
  unfold wave_buffer, leader, trailer, mark, mark_duration, range_len, append.
  rewrite carrier_loop_app, data_loop_app, carrier_loop_app.
  simpl. rewrite <- !app_assoc. reflexivity.
Qed.

Lemma duration_app (wb1 wb2 : list pulse) :
  duration (wb1 ++ wb2) = duration wb1 + duration wb2.
Proof.
  induction wb1 as [| p wb1 IH]; simpl; [reflexivity | rewrite IH; lia].
Qed.

Lemma duration_carrier (n : nat) :
  duration (carrier self n) = Z.of_nat n * (2 * (T_CARRIER self / 2)).
Proof.
  induction n as [| n IH]; [reflexivity |].
  rewrite carrier_succ, duration_app, IH. simpl duration. lia.
Qed.

Lemma length_carrier (n : nat) :
  List.length (carrier self n) = (2 * n)%nat.
Proof.
  induction n as [| n IH]; [reflexivity |].
  rewrite carrier_succ, length_app, IH. simpl. lia.
Qed.

Lemma carrier_delays (n : nat) :
  Forall (fun p => delay p = T_CARRIER self / 2) (carrier self n).
Proof.
  induction n as [| n IH]; [constructor |].
  rewrite carrier_succ. repeat constructor. exact IH.
Qed.

End WaveBuffer.

(** ** The two profiles *)

Lemma init_run (pin : N) (host format : string) (log : list pi_call) :
  __init__ pin host format log
  = (log ++ [pi_connect host; set_mode_output pin],
     if String.eqb format "AEHA" then Ok (AEHA pin host)
     else if String.eqb format "NEC" then Ok (NEC pin host)
     else Raise (Exception "Unknown format specified.")).
Proof.
  unfold __init__, bind, call. rewrite <- app_assoc. simpl.
  destruct (String.eqb format "AEHA"); [reflexivity |].
  destruct (String.eqb format "NEC"); reflexivity.
Qed.

Lemma init_ok_inv (pin : N) (host format : string) (log : list pi_call)
      (self : IRxmit) :
  snd (__init__ pin host format log) = Ok self ->
  (format = "AEHA"%string /\ self = AEHA pin host)
  \/ (format = "NEC"%string /\ self = NEC pin host).
Proof.
  rewrite init_run. simpl.
  destruct (String.eqb format "AEHA") eqn:Ha.
  - intros H. injection H as <-. left.
    split; [apply String.eqb_eq; exact Ha | reflexivity].
  - destruct (String.eqb format "NEC") eqn:Hn; intros H.
    + injection H as <-. right.
      split; [apply String.eqb_eq; exact Hn | reflexivity].
    + discriminate H.
Qed.

Lemma init_shipped (pin : N) (host format : string) (log : list pi_call)
      (self : IRxmit) :
  snd (__init__ pin host format log) = Ok self -> shipped self.
Proof.
  intros H. apply init_ok_inv in H as [[_ ->] | [_ ->]]; unfold shipped; simpl.
  - repeat split. left. repeat split.
  - repeat split. right. repeat split.
Qed.

Lemma shipped_mark_duration (self : IRxmit) :
  shipped self -> duration (mark self) = mark_duration self.
Proof.
  intros (Ht & _ & Hc). unfold mark, mark_duration.
  rewrite duration_carrier, Ht.
  destruct Hc as [(-> & _) | (-> & _)]; reflexivity.
Qed.

Lemma shipped_leader_on_duration (self : IRxmit) :
  shipped self ->
  duration (carrier self (Z.to_nat (MARK_CYCLES self * T_LEADER_ON self)))
  = mark_duration self * T_LEADER_ON self.
Proof.
  intros (Ht & _ & Hc). unfold mark_duration.
  rewrite duration_carrier, Ht.
  destruct Hc as [(-> & -> & _) | (-> & -> & _)]; reflexivity.
Qed.

(** ** Claims on the synthesizer *)

(** C7. In every frame synthesized under either profile, the leader's
    on-phase is [MARK_CYCLES * T_LEADER_ON] carrier cycles (on/off pairs of
    half a carrier period each) of total duration
    [mark_duration * T_LEADER_ON], and its off-phase is one off segment of
    duration [T_CARRIER * MARK_CYCLES * T_LEADER_OFF]. *)
Theorem leader_timing (pin : N) (host format : string) (log : list pi_call)
  (self : IRxmit) (bits : py_str)
  (Hinit : snd (__init__ pin host format log) = Ok self) :
  let leader_on :=
    carrier self (Z.to_nat (MARK_CYCLES self * T_LEADER_ON self)) in
  wave_buffer self bits
  = leader_on
    ++ [pulse_off self (T_CARRIER self * MARK_CYCLES self * T_LEADER_OFF self)]
    ++ flat_map (data_segment self) bits ++ trailer self
  /\ List.length leader_on
     = (2 * Z.to_nat (MARK_CYCLES self * T_LEADER_ON self))%nat
  /\ Forall (fun p => delay p = T_CARRIER self / 2) leader_on
  /\ duration leader_on = mark_duration self * T_LEADER_ON self.
Proof.
  intros leader_on. subst leader_on. repeat split.
  - rewrite wave_buffer_parts. unfold leader. rewrite <- !app_assoc.
    reflexivity.
  - apply length_carrier.
  - apply carrier_delays.
  - apply shipped_leader_on_duration. eapply init_shipped. exact Hinit.
Qed.

Lemma leader_timing_witness :
  let self := NEC 13 default_host in
  let leader_on :=
    carrier self (Z.to_nat (MARK_CYCLES self * T_LEADER_ON self)) in
  wave_buffer self (str "01")
  = leader_on
    ++ [pulse_off self (T_CARRIER self * MARK_CYCLES self * T_LEADER_OFF self)]
    ++ flat_map (data_segment self) (str "01") ++ trailer self
  /\ List.length leader_on
     = (2 * Z.to_nat (MARK_CYCLES self * T_LEADER_ON self))%nat
  /\ Forall (fun p => delay p = T_CARRIER self / 2) leader_on
  /\ duration leader_on = mark_duration self * T_LEADER_ON self.
Proof.
  apply (leader_timing 13 default_host "NEC" [] (NEC 13 default_host)
                       (str "01")).
  reflexivity.
Defined.

(** C2. In every frame synthesized under either profile, the data section
    holds, for each bit in order, a mark of [MARK_CYCLES] carrier cycles
    (on/off pairs of half a carrier period), of duration
    [T_CARRIER * MARK_CYCLES] whatever the bit, followed by one off segment
    of duration [mark_duration] for '0' and [mark_duration * MARK_OFF] for
    '1'. *)
Theorem data_bit_timing (pin : N) (host format : string) (log : list pi_call)
  (self : IRxmit) (bits : py_str)
  (Hinit : snd (__init__ pin host format log) = Ok self)
  (Hbits : forallb is_bit bits = true) :
  wave_buffer self bits
  = leader self
    ++ flat_map (fun bit =>
         mark self
         ++ [pulse_off self
               (if Ascii.eqb bit "0" then mark_duration self
                else mark_duration self * MARK_OFF self)]) bits
    ++ trailer self
  /\ mark self
     = List.concat (repeat [pulse_on self (T_CARRIER self / 2);
                            pulse_off self (T_CARRIER self / 2)]
                           (Z.to_nat (MARK_CYCLES self)))
  /\ duration (mark self) = T_CARRIER self * MARK_CYCLES self.
Proof.
  repeat split.
  - rewrite wave_buffer_parts. f_equal. f_equal.
    clear Hinit. induction bits as [| bit bits IH]; [reflexivity |].
    simpl in Hbits. apply andb_prop in Hbits as [Hbit Hbits].
    simpl flat_map. rewrite (IH Hbits). f_equal.
    unfold data_segment, space. unfold is_bit in Hbit.
    destruct (Ascii.eqb bit "0"); [reflexivity |].
    simpl in Hbit. rewrite Hbit. reflexivity.
  - apply shipped_mark_duration. eapply init_shipped. exact Hinit.
Qed.

Lemma data_bit_timing_witness :
  let self := AEHA 13 default_host in
  wave_buffer self (str "0110")
  = leader self
    ++ flat_map (fun bit =>
         mark self
         ++ [pulse_off self
               (if Ascii.eqb bit "0" then mark_duration self
                else mark_duration self * MARK_OFF self)]) (str "0110")
    ++ trailer self
  /\ mark self
     = List.concat (repeat [pulse_on self (T_CARRIER self / 2);
                            pulse_off self (T_CARRIER self / 2)]
                           (Z.to_nat (MARK_CYCLES self)))
  /\ duration (mark self) = T_CARRIER self * MARK_CYCLES self.
Proof.
  apply (data_bit_timing 13 default_host "AEHA" [] (AEHA 13 default_host)
                         (str "0110")); reflexivity.
Defined.

Lemma duration_data (self : IRxmit) (bits : py_str) :
  shipped self -> forallb is_bit bits = true ->
  duration (flat_map (data_segment self) bits)
  = mark_duration self
    * (2 * Z.of_nat (List.length bits)
       + 2 * Z.of_nat (count_occ ascii_dec bits "1"%char)).
Proof.
  intros Hs Hbits. induction bits as [| bit bits IH].
  - simpl. lia.
  - simpl in Hbits. apply andb_prop in Hbits as [Hbit Hbits].
    cbn [flat_map]. rewrite duration_app, (IH Hbits).
    unfold data_segment. rewrite duration_app, (shipped_mark_duration _ Hs).
    destruct Hs as (_ & Hoff & _).
    unfold is_bit in Hbit. apply orb_prop in Hbit as [H0 | H1].
    + apply Ascii.eqb_eq in H0. subst bit.
      rewrite count_occ_cons_neq by discriminate.
      replace (space self "0") with [pulse_off self (mark_duration self)]
        by reflexivity.
      cbn [duration fold_right delay pulse_off List.length].
      rewrite Nat2Z.inj_succ. ring.
    + apply Ascii.eqb_eq in H1. subst bit.
      rewrite count_occ_cons_eq by reflexivity.
      replace (space self "1")
        with [pulse_off self (mark_duration self * MARK_OFF self)]
        by reflexivity.
      cbn [duration fold_right delay pulse_off List.length].
      rewrite !Nat2Z.inj_succ, Hoff. ring.
Qed.

(** C9. Under either profile, the frame synthesized for a bit string of
    length n with k '1' bits lasts
    [mark_duration * (T_LEADER_ON + T_LEADER_OFF + 2n + 2k) + 8000]
    microseconds, the trailer accounting for exactly 8000 of them. *)
Theorem frame_duration (pin : N) (host format : string) (log : list pi_call)
  (self : IRxmit) (bits : py_str)
  (Hinit : snd (__init__ pin host format log) = Ok self)
  (Hbits : forallb is_bit bits = true) :
  duration (wave_buffer self bits)
  = mark_duration self
    * (T_LEADER_ON self + T_LEADER_OFF self
       + 2 * Z.of_nat (List.length bits)
       + 2 * Z.of_nat (count_occ ascii_dec bits "1"%char))
    + 8000
  /\ duration (trailer self) = 8000.
Proof.
  pose proof (init_shipped _ _ _ _ _ Hinit) as Hs.
  assert (Htr : duration (trailer self) = 8000).
  { unfold trailer. rewrite duration_app, (shipped_mark_duration _ Hs).
    cbn [duration fold_right delay pulse_off]. lia. }
  split; [| exact Htr].
  rewrite wave_buffer_parts, !duration_app, Htr, (duration_data _ _ Hs Hbits).
  unfold leader. rewrite duration_app, (shipped_leader_on_duration _ Hs).
  unfold mark_duration. cbn [duration fold_right delay pulse_off]. ring.
Qed.

Lemma frame_duration_witness :
  let self := NEC 13 default_host in
  let bits := str "0110000010011111" in
  duration (wave_buffer self bits)
  = mark_duration self
    * (T_LEADER_ON self + T_LEADER_OFF self
       + 2 * Z.of_nat (List.length bits)
       + 2 * Z.of_nat (count_occ ascii_dec bits "1"%char))
    + 8000
  /\ duration (trailer self) = 8000.
Proof.
  apply (frame_duration 13 default_host "NEC" [] (NEC 13 default_host)
                        (str "0110000010011111")); reflexivity.
Defined.

Lemma wave_buffer_delays (self : IRxmit) (bits : py_str) (P : Z -> Prop) :
  P (T_CARRIER self / 2) ->
  P (T_CARRIER self * MARK_CYCLES self * T_LEADER_OFF self) ->
  P (mark_duration self) ->
  P (mark_duration self * MARK_OFF self) ->
  P (8000 - mark_duration self) ->
  Forall (fun p => P (delay p)) (wave_buffer self bits).
Proof.
  intros Hhalf Hloff Hmark Hone Htrail.
  assert (Hcar : forall n, Forall (fun p => P (delay p)) (carrier self n)).
  { intros n. eapply Forall_impl; [| apply carrier_delays].
    intros p Hp. simpl in Hp. rewrite Hp. exact Hhalf. }
  rewrite wave_buffer_parts. repeat (apply Forall_app; split).
  - apply Hcar.
  - repeat constructor. exact Hloff.
  - apply Forall_flat_map, Forall_forall. intros bit _.
    unfold data_segment. apply Forall_app. split; [apply Hcar |].
    unfold space.
    destruct (Ascii.eqb bit "0"); [repeat constructor; exact Hmark |].
    destruct (Ascii.eqb bit "1"); repeat constructor. exact Hone.
  - apply Hcar.
  - repeat constructor. exact Htrail.
Qed.

(** C10. Under the AEHA and the NEC profile, every pulse of the frame
    synthesized for a bit string has a strictly positive duration: 13 for a
    carrier half-cycle, 442 (AEHA) or 572 (NEC) for a mark and a 0-space,
    1326 or 1716 for a 1-space, 1768 or 4576 for the leader space and 7558
    or 7428 for the trailer gap; no segment of non-positive duration is ever
    built for them. *)
Theorem shipped_delays_positive (pin : N) (host format : string)
  (log : list pi_call) (self : IRxmit) (bits : py_str)
  (Hinit : snd (__init__ pin host format log) = Ok self)
  (Hbits : forallb is_bit bits = true) :
  Forall (fun p => 0 < delay p) (wave_buffer self bits)
  /\ T_CARRIER self / 2 = 13
  /\ ((format = "AEHA"%string
       /\ mark_duration self = 442
       /\ mark_duration self * MARK_OFF self = 1326
       /\ T_CARRIER self * MARK_CYCLES self * T_LEADER_OFF self = 1768
       /\ 8000 - mark_duration self = 7558
       /\ Forall (fun p => In (delay p) [13; 442; 1326; 1768; 7558])
                 (wave_buffer self bits))
      \/ (format = "NEC"%string
          /\ mark_duration self = 572
          /\ mark_duration self * MARK_OFF self = 1716
          /\ T_CARRIER self * MARK_CYCLES self * T_LEADER_OFF self = 4576
          /\ 8000 - mark_duration self = 7428
          /\ Forall (fun p => In (delay p) [13; 572; 1716; 4576; 7428])
                    (wave_buffer self bits))).
Proof.
  apply init_ok_inv in Hinit as [[-> ->] | [-> ->]].
  - split; [apply (wave_buffer_delays _ _ (Z.lt 0)); reflexivity |].
    split; [reflexivity |]. left. repeat split.
    apply (wave_buffer_delays _ _ (fun d => In d [13; 442; 1326; 1768; 7558]));
      vm_compute; tauto.
  - split; [apply (wave_buffer_delays _ _ (Z.lt 0)); reflexivity |].
    split; [reflexivity |]. right. repeat split.
    apply (wave_buffer_delays _ _ (fun d => In d [13; 572; 1716; 4576; 7428]));
      vm_compute; tauto.
Qed.

Lemma shipped_delays_positive_witness :
  let self := AEHA 13 default_host in
  let wb := wave_buffer self (str "10") in
  Forall (fun p => 0 < delay p) wb
  /\ T_CARRIER self / 2 = 13
  /\ (("AEHA"%string = "AEHA"%string
       /\ mark_duration self = 442
       /\ mark_duration self * MARK_OFF self = 1326
       /\ T_CARRIER self * MARK_CYCLES self * T_LEADER_OFF self = 1768
       /\ 8000 - mark_duration self = 7558
       /\ Forall (fun p => In (delay p) [13; 442; 1326; 1768; 7558]) wb)
      \/ ("AEHA"%string = "NEC"%string
          /\ mark_duration self = 572
          /\ mark_duration self * MARK_OFF self = 1716
          /\ T_CARRIER self * MARK_CYCLES self * T_LEADER_OFF self = 4576
          /\ 8000 - mark_duration self = 7428
          /\ Forall (fun p => In (delay p) [13; 572; 1716; 4576; 7428]) wb)).
Proof.
  apply (shipped_delays_positive 13 default_host "AEHA" []
           (AEHA 13 default_host) (str "10")); reflexivity.
Defined.

(** C8. The payload "2c52092e27" under the AEHA profile: 5 bytes give 40
    bits; the leader mark is 136 carrier cycles of two 13 us halves, 3536 us
    in all; the leader space is 1768 us; every data bit has a mark of
    17 cycles, 442 us, before its space; the trailer space is 7558 us. *)
Theorem aeha_example (pin : N) (host : string) (log : list pi_call) :
  let self := AEHA pin host in
  let bits := str "0011010001001010100100000111010011100100" in
  let half := T_CARRIER self / 2 in
  snd (__init__ pin host "AEHA" log) = Ok self
  /\ get_bitstream (str "2c52092e27") = Ok bits
  /\ List.length bits = 40%nat
  /\ wave_buffer self bits
     = List.concat (repeat [pulse_on self 13; pulse_off self 13] 136)
       ++ [pulse_off self 1768]
       ++ flat_map (fun bit =>
            List.concat (repeat [pulse_on self 13; pulse_off self 13] 17)
            ++ [pulse_off self (if Ascii.eqb bit "0" then 442 else 1326)])
            bits
       ++ List.concat (repeat [pulse_on self 13; pulse_off self 13] 17)
       ++ [pulse_off self 7558]
  /\ duration (List.concat (repeat [pulse_on self 13; pulse_off self 13] 136))
     = 3536
  /\ duration (List.concat (repeat [pulse_on self 13; pulse_off self 13] 17))
     = 442.
Proof.
  intros self bits half.
  split; [rewrite init_run; reflexivity |].
  split; [vm_compute; reflexivity |].
  split; [reflexivity |].
  split; [| split; reflexivity].
  rewrite wave_buffer_parts. reflexivity.
Qed.

(** ** Claims on construction and on failure *)

(** C6. The constructor, given a format name other than "AEHA" and "NEC",
    raises the exception for an unknown format and yields no transmitter. *)
Theorem unknown_format_rejected (pin : N) (host format : string)
  (log : list pi_call)
  (Haeha : format <> "AEHA"%string) (Hnec : format <> "NEC"%string) :
  snd (__init__ pin host format log)
  = Raise (Exception "Unknown format specified.")
  /\ forall self, snd (__init__ pin host format log) <> Ok self.
Proof.
  rewrite init_run. simpl.
  apply String.eqb_neq in Haeha, Hnec. rewrite Haeha, Hnec.
  split; [reflexivity | intros self H; discriminate H].
Qed.

Lemma unknown_format_rejected_witness :
  snd (__init__ 13 default_host "RC5" [])
  = Raise (Exception "Unknown format specified.")
  /\ forall self, snd (__init__ 13 default_host "RC5" []) <> Ok self.
Proof.
  apply (unknown_format_rejected 13 default_host "RC5" []); discriminate.
Defined.



(** C4 fails as stated: sending the empty payload raises nothing, and a
    frame made of the leader and the trailer alone is handed to the device
    and played. *)
Lemma empty_payload_sent :
  get_bitstream [] = Ok []
  /\ send quiet_device ir13 [] []
     = ([wave_clear; wave_add_generic (leader ir13 ++ trailer ir13);
         wave_create; wave_send_once 0], Ok tt).
Proof.
  split; [reflexivity |].
  rewrite (send_run quiet_device ir13 [] [] eq_refl).
  rewrite (wave_buffer_parts ir13 []). reflexivity.
Qed.

(** C4, as the code has it. Sending the empty payload does not fail: the
    encoder returns the empty bitstream and the synthesizer builds a frame of
    the leader and the trailer only, which is handed to the device and
    played. *)
Theorem send_empty_payload (dev : pigpio) (self : IRxmit)
  (log : list pi_call) :
  let frame := leader self ++ trailer self in
  let log' := log ++ [wave_clear; wave_add_generic frame; wave_create] in
  get_bitstream [] = Ok []
  /\ wave_buffer self [] = frame
  /\ send dev self [] log
     = (log' ++ [wave_send_once (wave_create_ret dev log')], Ok tt).
Proof.
  intros frame log'. subst frame log'.
  split; [reflexivity |]. split; [apply (wave_buffer_parts self []) |].
  rewrite (send_run dev self [] [] eq_refl).
  rewrite (wave_buffer_parts self []). reflexivity.
Qed.

(** * Further properties *)

(** ** The encoder on any text *)

Lemma chunk_table :
  forallb (fun a => forallb (chunk_ok a) all_chars) all_chars = true.
Proof. vm_compute. reflexivity. Qed.

Lemma int16_pair_chunk (a b : ascii) (v : Z) :
  PyInt.int16 [a; b] = Ok v ->
  List.length (PyFormat.format_08b v) = 8%nat
  /\ forallb is_bit_or_minus (PyFormat.format_08b v) = true.
Proof.
  intros Hv. pose proof chunk_table as T.
  rewrite forallb_forall in T. specialize (T a (all_chars_complete a)).
  rewrite forallb_forall in T. specialize (T b (all_chars_complete b)).
  unfold chunk_ok in T. rewrite Hv in T.
  apply andb_prop in T as [Hlen Hch]. apply Nat.eqb_eq in Hlen.
  split; [exact Hlen | exact Hch].
Qed.

Lemma encode_pairs_shape (s : py_str) :
  forall acc bits,
    encode_pairs s acc = Ok bits ->
    exists tail,
      bits = acc ++ tail
      /\ List.length tail = (8 * (List.length s / 2))%nat
      /\ forallb is_bit_or_minus tail = true.
Proof.
  induction s as [| c | a b s IH] using pair_ind; intros acc bits H.
  - injection H as <-. exists []. rewrite app_nil_r. repeat split.
  - injection H as <-. exists []. rewrite app_nil_r. repeat split.
  - simpl in H. destruct (PyInt.int16 [a; b]) as [v | e] eqn:Hv;
      [| discriminate H].
    simpl in H. destruct (int16_pair_chunk a b v Hv) as [Hlen Hch].
    destruct (IH _ _ H) as (tail & -> & Htl & Htc).
    exists (rev (PyFormat.format_08b v) ++ tail).
    rewrite half_length_cons2, app_assoc. split; [reflexivity |].
    split.
    + rewrite length_app, length_rev, Hlen, Htl. lia.
    + rewrite forallb_app, Htc, andb_true_r.
      rewrite forallb_forall in *. intros c Hc. apply Hch, in_rev, Hc.
Qed.

(** X1. Whenever [get_bitstream] returns, on hexadecimal text or not, its result
    has exactly 8 characters per pair of the text, each '0', '1' or '-'. *)
Theorem get_bitstream_shape (s bits : py_str)
  (Hok : get_bitstream s = Ok bits) :
  List.length bits = (8 * (List.length s / 2))%nat
  /\ forallb is_bit_or_minus bits = true.
Proof.
  rewrite get_bitstream_pairs in Hok.
  destruct (encode_pairs_shape s [] bits Hok) as (tail & -> & Hlen & Hch).
  split; [exact Hlen | exact Hch].
Qed.

Lemma get_bitstream_shape_witness :
  List.length (str "0101000-00110100")
  = (8 * (List.length (str "-a2c") / 2))%nat
  /\ forallb is_bit_or_minus (str "0101000-00110100") = true.
Proof.
  apply (get_bitstream_shape (str "-a2c") (str "0101000-00110100")).
  reflexivity.
Defined.

Lemma encode_pairs_acc (s : py_str) :
  forall acc,
    encode_pairs s acc
    = (bits <-? encode_pairs s [] ;; Ok (acc ++ bits)).
Proof.
  induction s as [| c | a b s IH] using pair_ind; intros acc.
  - simpl. rewrite app_nil_r. reflexivity.
  - simpl. rewrite app_nil_r. reflexivity.
  - simpl. destruct (PyInt.int16 [a; b]) as [v | e]; simpl; [| reflexivity].
    rewrite (IH (acc ++ rev (PyFormat.format_08b v))).
    rewrite (IH (rev (PyFormat.format_08b v))).
    destruct (encode_pairs s []) as [bits | e]; simpl; [| reflexivity].
    rewrite app_assoc. reflexivity.
Qed.

Lemma encode_pairs_app (s1 : py_str) :
  Nat.even (List.length s1) = true ->
  forall s2 acc,
    encode_pairs (s1 ++ s2) acc
    = (b1 <-? encode_pairs s1 acc ;; encode_pairs s2 b1).
Proof.
  induction s1 as [| c | a b s1 IH] using pair_ind; intros Hev s2 acc.
  - reflexivity.
  - discriminate Hev.
  - simpl. destruct (PyInt.int16 [a; b]) as [v | e]; simpl; [| reflexivity].
    apply IH. exact Hev.
Qed.

(** X2. Encoding a text cut at an even place is encoding the two parts one after
    the other: the bitstreams are joined, and the first exception met is the
    one raised. *)
Theorem get_bitstream_app (s1 s2 : py_str)
  (Heven : Nat.even (List.length s1) = true) :
  get_bitstream (s1 ++ s2)
  = (b1 <-? get_bitstream s1 ;;
     b2 <-? get_bitstream s2 ;;
     Ok (b1 ++ b2)).
Proof.
  rewrite !get_bitstream_pairs, (encode_pairs_app s1 Heven).
  destruct (encode_pairs s1 []) as [b1 | e]; simpl; [| reflexivity].
  apply encode_pairs_acc.
Qed.

Lemma get_bitstream_app_witness :
  get_bitstream (str "06f9" ++ str "01fe")
  = (b1 <-? get_bitstream (str "06f9") ;;
     b2 <-? get_bitstream (str "01fe") ;;
     Ok (b1 ++ b2)).
Proof.
  apply (get_bitstream_app (str "06f9") (str "01fe")). reflexivity.
Defined.

(** ** The order of the bits *)

Lemma byte_bits_table : forallb byte_bits_ok all_bytes = true.
Proof. vm_compute. reflexivity. Qed.

Lemma lsb_first_nth (n : N) (i : nat) :
  (n < 256)%N -> (i < 8)%nat ->
  nth i (lsb_first n) "0"%char = bit_char (N.testbit n (N.of_nat i)).
Proof.
  intros Hn Hi. pose proof byte_bits_table as T.
  rewrite forallb_forall in T.
  assert (Hin : In n all_bytes).
  { rewrite <- (N2Nat.id n). unfold all_bytes. apply in_map, in_seq. lia. }
  specialize (T n Hin). unfold byte_bits_ok in T.
  rewrite forallb_forall in T.
  apply Ascii.eqb_eq, T, in_seq. lia.
Qed.

Lemma length_lsb_first_byte (n : N) :
  (n < 256)%N -> List.length (lsb_first n) = 8%nat.
Proof.
  intros Hn. unfold lsb_first. rewrite length_rev.
  exact (proj1 (format_08b_byte n Hn)).
Qed.

Lemma nth_flat_map_lsb_first (bytes : list N) :
  Forall (fun n => (n < 256)%N) bytes ->
  forall j i, (j < List.length bytes)%nat -> (i < 8)%nat ->
    nth (8 * j + i) (flat_map lsb_first bytes) "0"%char
    = nth i (lsb_first (nth j bytes 0%N)) "0"%char.
Proof.
  induction 1 as [| n bytes Hn _ IH]; intros j i Hj Hi.
  - simpl in Hj. lia.
  - pose proof (length_lsb_first_byte n Hn) as Hlen.
    cbn [flat_map]. destruct j as [| j].
    + rewrite Nat.mul_0_r, Nat.add_0_l. cbn [nth].
      apply app_nth1. lia.
    + rewrite app_nth2 by lia. rewrite Hlen.
      replace (8 * S j + i - 8)%nat with (8 * j + i)%nat by lia.
      cbn [nth]. apply IH; [simpl in Hj; lia | exact Hi].
Qed.

(** X3. The bitstream of a hexadecimal text holds bit [i] of byte [j] at place
    [8 j + i]: bytes in the order of the text, each least significant bit
    first. *)
Theorem get_bitstream_bit_order (s : py_str) (j i : nat)
  (Hhex : forallb is_hex s = true)
  (Hj : (j < List.length s / 2)%nat) (Hi : (i < 8)%nat) :
  exists bits,
    get_bitstream s = Ok bits
    /\ nth (8 * j + i) bits "0"%char
       = bit_char (N.testbit (nth j (payload_bytes s) 0%N) (N.of_nat i)).
Proof.
  exists (flat_map lsb_first (payload_bytes s)).
  pose proof (payload_bytes_bound s) as Hb.
  split.
  - rewrite get_bitstream_pairs. apply (encode_pairs_hex s Hhex []).
  - rewrite nth_flat_map_lsb_first;
      [| exact Hb | rewrite length_payload_bytes; exact Hj | exact Hi].
    apply lsb_first_nth; [| exact Hi].
    rewrite Forall_forall in Hb. apply Hb, nth_In.
    rewrite length_payload_bytes. exact Hj.
Qed.

Lemma get_bitstream_bit_order_witness :
  exists bits,
    get_bitstream (str "2c52") = Ok bits
    /\ nth (8 * 1 + 4) bits "0"%char
       = bit_char (N.testbit (nth 1 (payload_bytes (str "2c52")) 0%N)
                             (N.of_nat 4)).
Proof.
  apply (get_bitstream_bit_order (str "2c52") 1 4);
    [reflexivity | simpl; lia | lia].
Defined.

(** X4. Two hexadecimal texts have the same bitstream exactly when they denote
    the same bytes: neither the case of the digits nor a last odd character
    matters, and different bytes are never encoded alike. *)
Theorem get_bitstream_eq_iff_bytes (s1 s2 : py_str)
  (Hhex1 : forallb is_hex s1 = true) (Hhex2 : forallb is_hex s2 = true) :
  get_bitstream s1 = get_bitstream s2 <-> payload_bytes s1 = payload_bytes s2.
Proof.
  rewrite !get_bitstream_pairs.
  rewrite (encode_pairs_hex s1 Hhex1 []), (encode_pairs_hex s2 Hhex2 []).
  simpl. split; intros H.
  - injection H as H.
    rewrite <- (decode_lsb_first _ (payload_bytes_bound s1)).
    rewrite <- (decode_lsb_first _ (payload_bytes_bound s2)).
    rewrite H. reflexivity.
  - rewrite H. reflexivity.
Qed.

Lemma get_bitstream_eq_iff_bytes_witness :
  get_bitstream (str "2C5e") = get_bitstream (str "2c5E7")
  <-> payload_bytes (str "2C5e") = payload_bytes (str "2c5E7").
Proof.
  apply (get_bitstream_eq_iff_bytes (str "2C5e") (str "2c5E7")); reflexivity.
Defined.

(** ** Which exception the encoder raises *)

Lemma get_bitstream_step_ok (s bits bits' : py_str) (i : nat) :
  get_bitstream_step s bits i = Ok bits' ->
  exists v, PyInt.int16 (slice s (i * 2) (i * 2 + 2)) = Ok v.
Proof.
  unfold get_bitstream_step.
  destruct (PyInt.int16 (slice s (i * 2) (i * 2 + 2))) as [v | e]; simpl;
    intros H; [exists v; reflexivity | discriminate H].
Qed.

(** X5. An exception of [get_bitstream] is the [ValueError] of the first pair
    that [int] rejects: every pair before it was accepted, and the pairs
    after it are not looked at. *)
Theorem get_bitstream_first_error (s : py_str) (e : exn)
  (Hraise : get_bitstream s = Raise e) :
  exists i,
    (i < List.length s / 2)%nat
    /\ e = ValueError (slice s (i * 2) (i * 2 + 2))
    /\ (forall j, (j < i)%nat ->
          exists v, PyInt.int16 (slice s (j * 2) (j * 2 + 2)) = Ok v)
    /\ forall rest,
         get_bitstream (firstn (i * 2 + 2) s ++ rest) = Raise e.
Proof.
  unfold get_bitstream in Hraise.
  apply for_range_first_raise in Hraise as (i & Hi & [a' Hbad] & Hbefore).
  apply get_bitstream_step_raise in Hbad.
  pose proof (int16_raise_literal _ _ Hbad) as He.
  assert (Hlen : (i * 2 + 2 <= List.length s)%nat).
  { assert (H2 : (2 * (List.length s / 2) <= List.length s)%nat)
      by (apply Nat.Div0.mul_div_le).
    lia. }
  exists i. split; [lia |]. split; [exact He |]. split.
  - intros j Hj. destruct (Hbefore j) as (a1 & a2 & Hok); [lia |].
    apply get_bitstream_step_ok in Hok. exact Hok.
  - intros rest.
    assert (Hfl : List.length (firstn (i * 2 + 2) s) = (i * 2 + 2)%nat)
      by (apply firstn_length_le; exact Hlen).
    assert (Hslice : slice (firstn (i * 2 + 2) s ++ rest) (i * 2) (i * 2 + 2)
                     = slice s (i * 2) (i * 2 + 2)).
    { unfold slice. replace (i * 2 + 2 - i * 2)%nat with 2%nat by lia.
      rewrite skipn_app, Hfl.
      replace (i * 2 - (i * 2 + 2))%nat with 0%nat by lia.
      rewrite skipn_O, skipn_firstn_comm.
      replace (i * 2 + 2 - i * 2)%nat with 2%nat by lia.
      rewrite firstn_app, length_firstn.
      assert (Hsk : (2 <= List.length (skipn (i * 2) s))%nat)
        by (rewrite length_skipn; lia).
      replace (2 - Nat.min 2 (List.length (skipn (i * 2) s)))%nat
        with 0%nat by lia.
      rewrite firstn_O, app_nil_r, firstn_firstn. reflexivity. }
    destruct (for_range_raise_at
                (get_bitstream_step (firstn (i * 2 + 2) s ++ rest)) i)
      with (idx := seq 0 (List.length (firstn (i * 2 + 2) s ++ rest) / 2))
           (a := @nil ascii) as [e2 He2].
    + intros a. exists e. apply get_bitstream_step_raise.
      rewrite Hslice. exact Hbad.
    + apply in_seq. rewrite length_app, Hfl. split; [lia |].
      apply (Nat.lt_le_trans _ ((i * 2 + 2) / 2)).
      * replace (i * 2 + 2)%nat with ((i + 1) * 2)%nat by lia.
        rewrite Nat.div_mul by discriminate. lia.
      * apply Nat.Div0.div_le_mono. lia.
    + unfold get_bitstream. rewrite He2. f_equal.
      apply for_range_first_raise in He2 as (i2 & Hi2 & [a2 Hbad2] & Hbefore2).
      apply get_bitstream_step_raise in Hbad2.
      destruct (Nat.lt_trichotomy i2 i) as [Hlt | [-> | Hgt]].
      * destruct (Hbefore i2) as (a1 & a3 & Hok); [lia |].
        apply get_bitstream_step_ok in Hok as [v Hv].
        assert (Hs2 : slice (firstn (i * 2 + 2) s ++ rest)
                            (i2 * 2) (i2 * 2 + 2)
                      = slice s (i2 * 2) (i2 * 2 + 2)).
        { unfold slice. replace (i2 * 2 + 2 - i2 * 2)%nat with 2%nat by lia.
          rewrite skipn_app, Hfl.
          replace (i2 * 2 - (i * 2 + 2))%nat with 0%nat by lia.
          rewrite skipn_O, skipn_firstn_comm, firstn_app, length_firstn.
          assert (Hsk : (2 <= List.length (skipn (i2 * 2) s))%nat)
            by (rewrite length_skipn; lia).
          replace (2 - Nat.min (i * 2 + 2 - i2 * 2)
                               (List.length (skipn (i2 * 2) s)))%nat
            with 0%nat by lia.
          rewrite firstn_O, app_nil_r, firstn_firstn.
          replace (Nat.min 2 (i * 2 + 2 - i2 * 2)) with 2%nat by lia.
          reflexivity. }
        rewrite Hs2, Hv in Hbad2. discriminate Hbad2.
      * rewrite Hslice, Hbad in Hbad2. injection Hbad2 as ->. reflexivity.
      * destruct (Hbefore2 i) as (a1 & a3 & Hok); [lia |].
        apply get_bitstream_step_ok in Hok as [v Hv].
        rewrite Hslice, Hbad in Hv. discriminate Hv.
Qed.

Lemma get_bitstream_first_error_witness :
  exists i,
    (i < List.length (str "2cz9g") / 2)%nat
    /\ ValueError (str "z9")
       = ValueError (slice (str "2cz9g") (i * 2) (i * 2 + 2))
    /\ (forall j, (j < i)%nat ->
          exists v, PyInt.int16 (slice (str "2cz9g") (j * 2) (j * 2 + 2))
                    = Ok v)
    /\ forall rest,
         get_bitstream (firstn (i * 2 + 2) (str "2cz9g") ++ rest)
         = Raise (ValueError (str "z9")).
Proof.
  apply (get_bitstream_first_error (str "2cz9g") (ValueError (str "z9"))).
  reflexivity.
Defined.

(** ** The shape of the wave buffer *)

Lemma length_data (self : IRxmit) (bits : py_str) :
  List.length (flat_map (data_segment self) bits)
  = (2 * Z.to_nat (MARK_CYCLES self) * List.length bits
     + List.length (filter is_bit bits))%nat.
Proof.
  induction bits as [| bit bits IH]; [simpl; lia |].
  cbn [flat_map filter]. rewrite length_app, IH.
  unfold data_segment, mark, space, is_bit.
  rewrite length_app, length_carrier.
  destruct (Ascii.eqb bit "0"); simpl; [lia |].
  destruct (Ascii.eqb bit "1"); simpl; lia.
Qed.

(** X8. The number of pulses of a frame: two per carrier cycle of the leader, of
    each character's mark and of the trailer mark, one for the leader space
    and one for the trailer gap, and one space for each character that is
    '0' or '1'; any other character gets a mark and no space. *)
Theorem wave_buffer_length (self : IRxmit) (bits : py_str) :
  List.length (wave_buffer self bits)
  = (2 * Z.to_nat (MARK_CYCLES self * T_LEADER_ON self) + 1
     + (2 * Z.to_nat (MARK_CYCLES self) * List.length bits
        + List.length (filter is_bit bits))
     + (2 * Z.to_nat (MARK_CYCLES self) + 1))%nat.
Proof.
  rewrite wave_buffer_parts, !length_app, length_data.
  unfold leader, trailer, mark.
  rewrite !length_app, !length_carrier. simpl. lia.
Qed.

Lemma carrier_paired_app (self : IRxmit) (wb1 wb2 : list pulse) :
  carrier_paired self wb1 -> carrier_paired self wb2 ->
  carrier_paired self (wb1 ++ wb2).
Proof.
  induction wb1 as [| p wb1 IH]; intros H1 H2; [exact H2 |].
  cbn [app carrier_paired] in *.
  destruct H1 as [(Hp & Hnext & Hrest) | (Hp & Hrest)].
  - left. split; [exact Hp |]. split; [| apply IH; assumption].
    destruct wb1 as [| q wb1]; [destruct Hnext | exact Hnext].
  - right. split; [exact Hp | apply IH; assumption].
Qed.

Lemma carrier_paired_carrier (self : IRxmit) (n : nat) :
  carrier_paired self (carrier self n).
Proof.
  induction n as [| n IH]; [exact I |].
  rewrite carrier_succ. cbn [app carrier_paired].
  left. split; [reflexivity |]. split; [reflexivity |].
  right. split; [eexists; reflexivity | exact IH].
Qed.

Lemma carrier_paired_off (self : IRxmit) (d : Z) :
  carrier_paired self [pulse_off self d].
Proof. right. split; [eexists; reflexivity | exact I]. Qed.

Lemma pin_mask_positive (self : IRxmit) :
  0 < Z.shiftl 1 (Z.of_N (pin self)).
Proof.
  rewrite Z.shiftl_1_l. apply Z.pow_pos_nonneg; lia.
Qed.

(** X9. A frame drives only the transmitter's pin, never lights the LED for
    longer than half a carrier period at a stretch, and leaves it dark:
    every pulse is an on or an off pulse of the mask [1 << pin], each on
    pulse lasts [T_CARRIER // 2] and is directly followed by an off pulse of
    the same length, and the last pulse is the off pulse of the trailer. *)
Theorem wave_buffer_carrier_paired (self : IRxmit) (bits : py_str) :
  carrier_paired self (wave_buffer self bits)
  /\ (forall d d', pulse_on self d <> pulse_off self d')
  /\ last (wave_buffer self bits) (pulse_on self 0)
     = pulse_off self (8000 - T_CARRIER self * MARK_CYCLES self).
Proof.
  split; [| split].
  - rewrite wave_buffer_parts. unfold leader, trailer, mark.
    repeat apply carrier_paired_app;
      try apply carrier_paired_carrier; try apply carrier_paired_off.
    induction bits as [| bit bits IH]; [exact I |].
    cbn [flat_map]. apply carrier_paired_app; [| exact IH].
    unfold data_segment, mark, space.
    apply carrier_paired_app; [apply carrier_paired_carrier |].
    destruct (Ascii.eqb bit "0"); [apply carrier_paired_off |].
    destruct (Ascii.eqb bit "1"); [apply carrier_paired_off | exact I].
  - intros d d' H. unfold pulse_on, pulse_off in H.
    injection H as H _ _. pose proof (pin_mask_positive self). lia.
  - rewrite wave_buffer_parts. unfold trailer, mark_duration.
    rewrite !app_assoc. apply last_last.
Qed.

(** ** Frames and their data *)

Lemma space_of_bit (self : IRxmit) (bit : ascii) :
  is_bit bit = true ->
  (bit = "0"%char /\ space self bit = [pulse_off self (mark_duration self)])
  \/ (bit = "1"%char
      /\ space self bit
         = [pulse_off self (mark_duration self * MARK_OFF self)]).
Proof.
  unfold is_bit. intros H. apply orb_prop in H as [H | H];
    apply Ascii.eqb_eq in H; subst bit; [left | right];
    split; reflexivity.
Qed.

Lemma data_segment_injective (self : IRxmit) :
  mark_duration self <> mark_duration self * MARK_OFF self ->
  forall bits1 bits2,
    forallb is_bit bits1 = true -> forallb is_bit bits2 = true ->
    flat_map (data_segment self) bits1 = flat_map (data_segment self) bits2 ->
    bits1 = bits2.
Proof.
  intros Hne. unfold data_segment.
  induction bits1 as [| b1 bits1 IH]; intros [| b2 bits2] H1 H2 H.
  - reflexivity.
  - exfalso. simpl in H2. apply andb_prop in H2 as [Hb _].
    cbn [flat_map] in H.
    destruct (space_of_bit self b2 Hb) as [[_ Hsp] | [_ Hsp]];
      rewrite Hsp in H; destruct (mark self); discriminate H.
  - exfalso. simpl in H1. apply andb_prop in H1 as [Hb _].
    cbn [flat_map] in H.
    destruct (space_of_bit self b1 Hb) as [[_ Hsp] | [_ Hsp]];
      rewrite Hsp in H; destruct (mark self); discriminate H.
  - cbn [flat_map] in H. rewrite <- !app_assoc in H.
    apply app_inv_head in H.
    simpl in H1, H2. apply andb_prop in H1 as [Hb1 H1].
    apply andb_prop in H2 as [Hb2 H2].
    destruct (space_of_bit self b1 Hb1) as [[-> Hsp1] | [-> Hsp1]];
      destruct (space_of_bit self b2 Hb2) as [[-> Hsp2] | [-> Hsp2]];
      rewrite Hsp1 in H; rewrite ?Hsp2 in H;
      pose proof (f_equal (@tl pulse) H) as Hrest;
      pose proof (f_equal (fun l => delay (hd (pulse_on self 0) l)) H) as Hd;
      cbn [app tl hd delay pulse_off] in Hrest, Hd.
    + f_equal. apply IH; assumption.
    + exfalso. apply Hne. exact Hd.
    + exfalso. apply Hne. symmetry. exact Hd.
    + f_equal. apply IH; assumption.
Qed.

(** X10. Under either format the frame determines the bit string: two bit
    strings give the same wave buffer only when they are equal. *)
Theorem wave_buffer_injective (pin : N) (host format : string)
  (log : list pi_call) (self : IRxmit) (bits1 bits2 : py_str)
  (Hinit : snd (__init__ pin host format log) = Ok self)
  (Hbits1 : forallb is_bit bits1 = true)
  (Hbits2 : forallb is_bit bits2 = true)
  (Hsame : wave_buffer self bits1 = wave_buffer self bits2) :
  bits1 = bits2.
Proof.
  rewrite !wave_buffer_parts in Hsame.
  apply app_inv_head, app_inv_tail in Hsame.
  apply (data_segment_injective self); try assumption.
  apply init_ok_inv in Hinit as [[_ ->] | [_ ->]]; vm_compute; discriminate.
Qed.

Lemma wave_buffer_injective_witness : str "0110" = str "0110".
Proof.
  apply (wave_buffer_injective 13 default_host "NEC" [] (NEC 13 default_host)
           (str "0110") (str "0110")); reflexivity.
Defined.

Lemma shipped_frame_duration (self : IRxmit) (bits : py_str) :
  shipped self -> forallb is_bit bits = true ->
  duration (wave_buffer self bits)
  = mark_duration self
    * (T_LEADER_ON self + T_LEADER_OFF self
       + 2 * Z.of_nat (List.length bits)
       + 2 * Z.of_nat (count_occ ascii_dec bits "1"%char))
    + 8000.
Proof.
  intros Hs Hbits.
  rewrite wave_buffer_parts, !duration_app, (duration_data _ _ Hs Hbits).
  unfold leader, trailer.
  rewrite !duration_app, (shipped_leader_on_duration _ Hs),
    (shipped_mark_duration _ Hs).
  unfold mark_duration. cbn [duration fold_right delay pulse_off]. ring.
Qed.

(** X11. A frame stays within the expected maximum frame length [T_FRAME_MAX] of
    its format for every bit string of up to 66 bits under AEHA and up to
    37 bits under NEC, whatever the bits; a frame of n bits lasts at least
    [mark_duration * (T_LEADER_ON + T_LEADER_OFF + 2 n) + 8000] us. *)
Theorem frame_within_frame_max (pin : N) (host format : string)
  (log : list pi_call) (self : IRxmit) (bits : py_str)
  (Hinit : snd (__init__ pin host format log) = Ok self)
  (Hbits : forallb is_bit bits = true)
  (Hlen : (List.length bits
           <= if String.eqb format "AEHA" then 66 else 37)%nat) :
  (inject_Z (duration (wave_buffer self bits)) <= frame_max_us self)%Q
  /\ mark_duration self
     * (T_LEADER_ON self + T_LEADER_OFF self
        + 2 * Z.of_nat (List.length bits)) + 8000
     <= duration (wave_buffer self bits).
Proof.
  pose proof (init_shipped _ _ _ _ _ Hinit) as Hs.
  rewrite (shipped_frame_duration self bits Hs Hbits).
  pose proof (count_occ_bound ascii_dec "1"%char bits) as Hk.
  apply init_ok_inv in Hinit as [[-> ->] | [-> ->]];
    simpl String.eqb in Hlen; cbv iota in Hlen;
    unfold frame_max_us, mark_duration, Qle;
    cbn [AEHA NEC T_CARRIER MARK_CYCLES T_LEADER_ON T_LEADER_OFF T_FRAME_MAX
         Qmult Qnum Qden inject_Z];
    split; lia.
Qed.

Lemma frame_within_frame_max_witness :
  let self := NEC 13 default_host in
  let bits := str "01100000100111111000000001111111" in
  (inject_Z (duration (wave_buffer self bits)) <= frame_max_us self)%Q
  /\ mark_duration self
     * (T_LEADER_ON self + T_LEADER_OFF self
        + 2 * Z.of_nat (List.length bits)) + 8000
     <= duration (wave_buffer self bits).
Proof.
  apply (frame_within_frame_max 13 default_host "NEC" []
           (NEC 13 default_host)
           (str "01100000100111111000000001111111"));
    [reflexivity | reflexivity | simpl; lia].
Defined.

(** ** Profiles in general *)

Lemma duration_data_any (self : IRxmit) (bits : py_str) :
  forallb is_bit bits = true ->
  duration (flat_map (data_segment self) bits)
  = Z.of_nat (List.length bits) * duration (mark self)
    + (Z.of_nat (List.length bits)
       - Z.of_nat (count_occ ascii_dec bits "1"%char)) * mark_duration self
    + Z.of_nat (count_occ ascii_dec bits "1"%char)
      * (mark_duration self * MARK_OFF self).
Proof.
  intros Hbits. induction bits as [| bit bits IH]; [reflexivity |].
  simpl in Hbits. apply andb_prop in Hbits as [Hbit Hbits].
  cbn [flat_map]. rewrite duration_app, (IH Hbits).
  unfold data_segment. rewrite duration_app.
  destruct (space_of_bit self bit Hbit) as [[-> Hsp] | [-> Hsp]]; rewrite Hsp.
  - rewrite count_occ_cons_neq by discriminate.
    cbn [duration fold_right delay pulse_off List.length].
    rewrite Nat2Z.inj_succ. ring.
  - rewrite count_occ_cons_eq by reflexivity.
    cbn [duration fold_right delay pulse_off List.length].
    rewrite !Nat2Z.inj_succ. ring.
Qed.

(** X12. For any values of the fields with [MARK_CYCLES] and [T_LEADER_ON]
    not negative, the frame built for a string of n bits, k of them '1',
    lasts the nominal
    [T_CARRIER * MARK_CYCLES
     * (T_LEADER_ON + T_LEADER_OFF + n + (n - k) + k * MARK_OFF) + 8000]
    us less [(T_CARRIER mod 2) * MARK_CYCLES * (T_LEADER_ON + n + 1)]:
    as both carrier half-cycles last [T_CARRIER // 2], an odd carrier period
    makes every mark [MARK_CYCLES] us short, and an even one loses
    nothing. *)
Theorem frame_duration_rounding (self : IRxmit) (bits : py_str)
  (Hcycles : 0 <= MARK_CYCLES self)
  (Hleader : 0 <= T_LEADER_ON self)
  (Hbits : forallb is_bit bits = true) :
  let n := Z.of_nat (List.length bits) in
  let k := Z.of_nat (count_occ ascii_dec bits "1"%char) in
  duration (wave_buffer self bits)
  = T_CARRIER self * MARK_CYCLES self
    * (T_LEADER_ON self + T_LEADER_OFF self + n + (n - k) + k * MARK_OFF self)
    + 8000
    - (T_CARRIER self mod 2) * MARK_CYCLES self * (T_LEADER_ON self + n + 1).
Proof.
  intros n k. subst n k.
  rewrite wave_buffer_parts, !duration_app, (duration_data_any _ _ Hbits).
  unfold leader, trailer, mark.
  rewrite !duration_app, !duration_carrier.
  rewrite !Z2Nat.id by (try exact Hcycles; apply Z.mul_nonneg_nonneg;
                        assumption).
  unfold mark_duration. cbn [duration fold_right delay pulse_off].
  pose proof (Z.div_mod (T_CARRIER self) 2 ltac:(discriminate)) as Hdm.
  set (h := T_CARRIER self / 2) in *. set (r := T_CARRIER self mod 2) in *.
  rewrite Hdm. ring.
Qed.

Lemma frame_duration_rounding_witness :
  let self := {| pin := 13; host := default_host;
                 T_CARRIER := 27; MARK_CYCLES := 17; MARK_OFF := 3;
                 T_FRAME_MAX := 13 # 100;
                 T_LEADER_ON := 8; T_LEADER_OFF := 4 |} in
  let bits := str "0110" in
  let n := Z.of_nat (List.length bits) in
  let k := Z.of_nat (count_occ ascii_dec bits "1"%char) in
  duration (wave_buffer self bits)
  = T_CARRIER self * MARK_CYCLES self
    * (T_LEADER_ON self + T_LEADER_OFF self + n + (n - k) + k * MARK_OFF self)
    + 8000
    - (T_CARRIER self mod 2) * MARK_CYCLES self * (T_LEADER_ON self + n + 1).
Proof.
  apply (frame_duration_rounding
           {| pin := 13; host := default_host;
              T_CARRIER := 27; MARK_CYCLES := 17; MARK_OFF := 3;
              T_FRAME_MAX := 13 # 100;
              T_LEADER_ON := 8; T_LEADER_OFF := 4 |} (str "0110"));
    [discriminate | discriminate | reflexivity].
Defined.

(** X13. For any values of the fields, not only those of the two formats: when
    the carrier period is at least 2, the mark has at least one cycle and the
    ratio of the 1-space and the leader off time are at least 1, every
    pulse of a frame has a positive duration exactly when the mark is shorter
    than 8000 us; with a longer mark the trailer gap is not positive. *)
Theorem delays_positive_iff_short_mark (self : IRxmit) (bits : py_str)
  (Hcarrier : 2 <= T_CARRIER self)
  (Hcycles : 1 <= MARK_CYCLES self)
  (Hratio : 1 <= MARK_OFF self)
  (Hleader : 1 <= T_LEADER_OFF self) :
  Forall (fun p => 0 < delay p) (wave_buffer self bits)
  <-> mark_duration self < 8000.
Proof.
  unfold mark_duration. split.
  - intros Hall. rewrite wave_buffer_parts in Hall. unfold trailer in Hall.
    rewrite !app_assoc in Hall. apply Forall_app in Hall as [_ Hlast].
    apply Forall_inv in Hlast. cbn [delay pulse_off] in Hlast.
    unfold mark_duration in Hlast. lia.
  - intros Hshort.
    apply (wave_buffer_delays self bits (Z.lt 0)); unfold mark_duration.
    + apply Z.div_str_pos. lia.
    + nia.
    + nia.
    + nia.
    + lia.
Qed.

Lemma delays_positive_iff_short_mark_witness :
  Forall (fun p => 0 < delay p) (wave_buffer long_mark (str "01"))
  <-> mark_duration long_mark < 8000.
Proof.
  apply (delays_positive_iff_short_mark long_mark (str "01"));
    vm_compute; discriminate.
Defined.
